(** * querystring-parser: the MongoDB-style filter parser and the include validator

    A shallow embedding of [parseMongoFilter] (core, filter-styles) and of
    [parseInclude] (objection package), together with the properties of the
    specification that concern them.

    JavaScript values are modelled by the types the code really handles:
    strings as [string], [undefined] as [None], arrays as lists, the object
    literal used as a lookup table as an association list (the last binding
    of a key wins, and a key that is not an own property is looked up on
    [Object.prototype]).  The modules the file [require]s but that are not
    part of it ([qs], the enumerations, the helpers) are interfaces: type
    classes whose members carry the source's names. *)

From Stdlib Require Import String Ascii List Bool Arith NArith Lia.
From Stdlib Require Import DecimalString.
Import ListNotations.
Open Scope string_scope.

Set Implicit Arguments.

(* ================================================================== *)
(** ** JavaScript string primitives used by the parser *)

(** [s.replace(/c/g, d)] for single characters [c] and [d]. *)
Fixpoint replaceAll (c d : ascii) (s : string) : string :=
  match s with
  | EmptyString => EmptyString
  | String x rest =>
      String (if Ascii.eqb x c then d else x) (replaceAll c d rest)
  end.

(** [s.split(sep)] for a one-character separator: always at least one
    segment, empty segments are kept. *)
Fixpoint split (sep : ascii) (s : string) : list string :=
  match s with
  | EmptyString => [EmptyString]
  | String x rest =>
      if Ascii.eqb x sep then EmptyString :: split sep rest
      else match split sep rest with
           | seg :: segs => String x seg :: segs
           | [] => [String x EmptyString]
           end
  end.

(** [s.length] as a truth value, the callback of [.filter((s) => s.length)]. *)
Definition hasLength (s : string) : bool :=
  match s with EmptyString => false | String _ _ => true end.

(** [key.startsWith(p)]. *)
Definition startsWith (p key : string) : bool := String.prefix p key.

(** A template-literal hole [${x}] where [x] is a string or [undefined]. *)
Definition hole (x : option string) : string :=
  match x with Some s => s | None => "undefined" end.

(* ================================================================== *)
(** ** Data *)

(** A value of the object returned by [qs.parse(_, { depth: 0, comma: true })]:
    a string, or an array of strings when the parameter was comma separated. *)
Inductive ProvidedValue :=
| Single (value : string)
| Many (values : list string).

Definition Array_isArray (v : ProvidedValue) : bool :=
  match v with Many _ => true | Single _ => false end.

(** enums/mongo-value-type *)
Inductive MongoValueType := NUMBER | DATE | NULL | STRING.

Definition MongoValueType_eqb (a b : MongoValueType) : bool :=
  match a, b with
  | NUMBER, NUMBER | DATE, DATE | NULL, NULL | STRING, STRING => true
  | _, _ => false
  end.

(** enums/mongo-operator: the members the parser reads, each a string.
    Their spellings are not part of this file, so every property below is
    stated for all of them. *)
Module MongoOperator.
Class enum := {
  EQUALS : string;
  NOT_EQUALS : string;
  GREATER_THAN : string;
  GREATER_OR_EQUAL : string;
  LESS_THAN : string;
  LESS_OR_EQUAL : string;
  ILIKE : string;
  IN : string;
  NOT_IN : string;
  IS_NULL : string
}.
End MongoOperator.

(** enums/sql-operator: the members the parser reads, each a string. *)
Module SqlOperator.
Class enum := {
  EQUALS : string;
  NOT_EQUALS : string;
  GREATER_THAN : string;
  GREATER_OR_EQUAL : string;
  LESS_THAN : string;
  LESS_OR_EQUAL : string;
  LIKE : string;
  ILIKE : string;
  IN : string;
  NOT_IN : string;
  IS_NULL : string;
  IS_NOT_NULL : string
}.
End SqlOperator.

(** JavaScript numbers: [Number(s)] and the conversion back to a string that a
    template literal performs.  Floating point is left abstract. *)
Module Js.
Class numbers := {
  number : Type;
  Number : string -> number;
  String_ : number -> string
}.
End Js.

(** The [qs] library, seen through [Object.entries(qs.parse(querystring,
    { depth: 0, comma: true }))]: the parameters in insertion order, the
    bracketed key kept verbatim. *)
Module qs.
Class lib := { parse : string -> list (string * ProvidedValue) }.
End qs.

(** helpers/are-mongo-types-the-same and helpers/is-null-string.  The first
    returns the shared value type, or a falsy value ([None]). *)
Class Helpers := {
  areMongoTypesTheSame : list string -> option MongoValueType;
  isNullString : string -> bool
}.

(** errors/querystring-parsing-error: the fields given to the constructor. *)
Record QuerystringParsingError := {
  message : string;
  querystring : string;
  paramKey : string;
  paramValue : ProvidedValue
}.

(** The result of reading a property off an object literal whose values are
    strings: an own property, a member inherited from [Object.prototype], or
    [undefined]. *)
Inductive Property :=
| Own (value : string)
| Inherited (name : string)
| Undefined.

(** The names every object literal inherits from [Object.prototype]. *)
Definition Object_prototype : list string :=
  [ "constructor"; "__defineGetter__"; "__defineSetter__"; "hasOwnProperty";
    "__lookupGetter__"; "__lookupSetter__"; "isPrototypeOf";
    "propertyIsEnumerable"; "toString"; "valueOf"; "__proto__";
    "toLocaleString" ].

Definition includes (l : list string) (x : string) : bool :=
  existsb (String.eqb x) l.

(** Own properties of [{ [k1]: v1, ..., [kn]: vn }]: a later binding of the
    same key overwrites an earlier one. *)
Fixpoint ownProperty (literal : list (string * string)) (key : string)
  : option string :=
  match literal with
  | [] => None
  | (k, v) :: rest =>
      match ownProperty rest key with
      | Some v' => Some v'
      | None => if String.eqb k key then Some v else None
      end
  end.

(** [literal[key]] *)
Definition getProperty (literal : list (string * string)) (key : string)
  : Property :=
  match ownProperty literal key with
  | Some v => Own v
  | None => if includes Object_prototype key then Inherited key else Undefined
  end.

(** [list.includes(p)] for a list of strings and a looked-up property
    (strict equality: only an own string can be equal to a string). *)
Definition includesProperty (l : list string) (p : Property) : bool :=
  match p with Own s => includes l s | _ => false end.

(** [p === s] *)
Definition strictEq (p : Property) (s : string) : bool :=
  match p with Own v => String.eqb v s | _ => false end.

(** The double-quote character of the error messages. *)
Definition dquote : string := String (ascii_of_nat 34) EmptyString.

(** [array.reduce(f)] without an initial value: the first element seeds the
    fold; on an empty array JavaScript throws a [TypeError] ([None]). *)
Definition reduce (A : Type) (f : A -> A -> A) (l : list A) : option A :=
  match l with
  | [] => None
  | x :: xs => Some (fold_left f xs x)
  end.

(* ================================================================== *)
(** ** core/lib/filter-styles: [parseMongoFilter] *)

Section ParseMongoFilter.

Context {numbers : Js.numbers} {qsLib : qs.lib} {helpers : Helpers}
        {mongo : MongoOperator.enum} {sql : SqlOperator.enum}.

(** A coerced value: [null], a number or a string. *)
Inductive Value :=
| Null
| Num (n : Js.number)
| Str (s : string).

(** The json-logic-like objects the parser builds. *)
Inductive Filter :=
| Unary (sqlOperator : Property) (attributeRef : string)
    (* { [sqlOperator]: attributeRef } *)
| Nary (sqlOperator : Property) (attributeRef : string)
       (sqlValues : list Value)
    (* { [sqlOperator]: [attributeRef, ...sqlValues] } *)
| AND (prevs curnt : Filter).
    (* { AND: [prevs, curnt] } *)

(** What a call does: it returns [{ results, errors }], or an exception
    leaves it. *)
Inductive Completion :=
| Return (results : option Filter) (errors : list QuerystringParsingError)
| Throw (error : string).

(** *** 1. Identify field, operator and value(s) *)

Definition segments (param : string) : list string :=
  filter hasLength (split "]" (replaceAll "[" "]" param)).

(** [let [, field, providedOperator = undefined] = ...] *)
Definition fieldOf (param : string) : option string :=
  nth_error (segments param) 1.

Definition providedOperatorOf (param : string) : option string :=
  nth_error (segments param) 2.

Definition createError (querystring : string) (field providedOperator : option string)
           (providedValue : ProvidedValue) (message : string)
  : QuerystringParsingError :=
  {| message := message;
     querystring := querystring;
     paramKey := "filter[" ++ hole field ++ "]" ++
                 match providedOperator with
                 | None => EmptyString
                 | Some op => "[" ++ op ++ "]"
                 end;
     paramValue := providedValue |}.

(** *** 2. Defaults and type coercion *)

Definition valuesOf (providedValue : ProvidedValue) : list string :=
  match providedValue with
  | Many values => values
  | Single value => [value]
  end.

Definition coerce (valueType : MongoValueType) (value : string) : Value :=
  if isNullString value then Null
  else if MongoValueType_eqb valueType NUMBER then Num (Js.Number value)
  else Str value.

Definition determineOperator (providedOperator : option string)
           (providedValueWasAnArray : bool) (valueType : MongoValueType)
  : string :=
  match providedOperator with
  | Some operator => operator
  | None =>
      if providedValueWasAnArray then MongoOperator.IN
      else match valueType with
           | NUMBER | DATE => MongoOperator.EQUALS
           | NULL => MongoOperator.IS_NULL
           | STRING => MongoOperator.ILIKE
           end
  end.

(** *** 3. Check for errors: the message of the first check that fires *)

Definition checkForErrors (providedValueWasAnArray : bool)
           (valueType : MongoValueType) (operator : string) : option string :=
  if providedValueWasAnArray &&
     negb (includes [MongoOperator.IN; MongoOperator.NOT_IN] operator)
  then Some (dquote ++ operator ++ dquote ++
             " operator should not be used with array value")
  else if MongoValueType_eqb valueType NULL &&
          includes [MongoOperator.GREATER_THAN; MongoOperator.GREATER_OR_EQUAL;
                    MongoOperator.LESS_THAN; MongoOperator.LESS_OR_EQUAL;
                    MongoOperator.ILIKE] operator
  then Some (dquote ++ operator ++ dquote ++
             " operator should not be used with null value")
  else if MongoValueType_eqb valueType NUMBER &&
          String.eqb operator MongoOperator.ILIKE
  then Some (dquote ++ operator ++ dquote ++
             " operator should not be used with number values")
  else if MongoValueType_eqb valueType DATE &&
          String.eqb operator MongoOperator.ILIKE
  then Some (dquote ++ operator ++ dquote ++
             " operator should not be used with date values")
  else None.

(** *** 4. Map operators and values to the SQL domain *)

Definition operatorTable : list (string * string) :=
  [ (MongoOperator.EQUALS, SqlOperator.EQUALS);
    (MongoOperator.IS_NULL, SqlOperator.EQUALS);
    (MongoOperator.NOT_EQUALS, SqlOperator.NOT_EQUALS);
    (MongoOperator.GREATER_THAN, SqlOperator.GREATER_THAN);
    (MongoOperator.GREATER_OR_EQUAL, SqlOperator.GREATER_OR_EQUAL);
    (MongoOperator.LESS_THAN, SqlOperator.LESS_THAN);
    (MongoOperator.LESS_OR_EQUAL, SqlOperator.LESS_OR_EQUAL);
    (MongoOperator.ILIKE, SqlOperator.ILIKE);
    (MongoOperator.IN, SqlOperator.IN);
    (MongoOperator.NOT_IN, SqlOperator.NOT_IN) ].

Definition nullTable : list (string * string) :=
  [ (SqlOperator.EQUALS, SqlOperator.IS_NULL);
    (SqlOperator.NOT_EQUALS, SqlOperator.IS_NOT_NULL) ].

(** [let sqlOperator = { ... }[operator]] *)
Definition baseSqlOperator (operator : string) : Property :=
  getProperty operatorTable operator.

(** The adjustment of EQUALS and NOT EQUALS for null values. *)
Definition adjustForNull (sqlOperator : Property) (valueType : MongoValueType)
  : Property :=
  if includesProperty [SqlOperator.EQUALS; SqlOperator.NOT_EQUALS] sqlOperator
     && MongoValueType_eqb valueType NULL
  then match sqlOperator with
       | Own key => getProperty nullTable key
       | _ => sqlOperator
       end
  else sqlOperator.

(** [${val}] *)
Definition template (val : Value) : string :=
  match val with
  | Null => "null"
  | Num n => Js.String_ n
  | Str s => s
  end.

(** The callback of [values.map] that computes [sqlValues]. *)
Definition wildcard (sqlOperator : Property) (val : Value) : Value :=
  if strictEq sqlOperator SqlOperator.LIKE
  then Str ("%" ++ template val ++ "%")
  else val.

Definition operatorIsUnary (sqlOperator : Property) : bool :=
  includesProperty [SqlOperator.IS_NULL; SqlOperator.IS_NOT_NULL] sqlOperator.

Definition format (field : option string) (sqlOperator : Property)
           (sqlValues : list Value) : Filter :=
  let attributeRef := "#" ++ hole field in
  if operatorIsUnary sqlOperator
  then Unary sqlOperator attributeRef
  else Nary sqlOperator attributeRef sqlValues.

(** *** One iteration of the loop over the filter parameters *)

Inductive Iteration :=
| ShortCircuit (error : QuerystringParsingError)
| Push (fieldResult : Filter).

Definition iteration (querystring : string) (entry : string * ProvidedValue)
  : Iteration :=
  let '(param, providedValue) := entry in
  let field := fieldOf param in
  let providedOperator := providedOperatorOf param in
  let providedValueWasAnArray := Array_isArray providedValue in
  let values := valuesOf providedValue in
  match areMongoTypesTheSame values with
  | None =>
      ShortCircuit (createError querystring field providedOperator providedValue
                      "arrays should not mix multiple value types")
  | Some valueType =>
      let values := map (coerce valueType) values in
      let operator :=
        determineOperator providedOperator providedValueWasAnArray valueType in
      match checkForErrors providedValueWasAnArray valueType operator with
      | Some message =>
          ShortCircuit (createError querystring field providedOperator
                          providedValue message)
      | None =>
          let sqlOperator := adjustForNull (baseSqlOperator operator) valueType in
          let sqlValues := map (wildcard sqlOperator) values in
          Push (format field sqlOperator sqlValues)
      end
  end.

(** *** The loop, with the mutable [errors], [results] and [fieldResults]
    passed along, and the reduction that follows it *)

Definition reduceError : string :=
  "TypeError: Reduce of empty array with no initial value".

Fixpoint forOf (querystring : string) (filterParams : list (string * ProvidedValue))
         (errors : list QuerystringParsingError) (results : option Filter)
         (fieldResults : list Filter) : Completion :=
  match filterParams with
  | [] =>
      match reduce AND fieldResults with
      | Some compound => Return (Some compound) errors
      | None => Throw reduceError
      end
  | entry :: rest =>
      match iteration querystring entry with
      | ShortCircuit error => Return results (errors ++ [error])
      | Push fieldResult =>
          forOf querystring rest errors results (fieldResults ++ [fieldResult])
      end
  end.

Definition isFilterParam (entry : string * ProvidedValue) : bool :=
  startsWith "filter" (fst entry).

(** The body of [parseMongoFilter] once [qs] has produced [qsParams]. *)
Definition parseParams (querystring : string)
           (qsParams : list (string * ProvidedValue)) : Completion :=
  let filterParams := filter isFilterParam qsParams in
  forOf querystring filterParams [] None [].

Definition parseMongoFilter (querystring : string) : Completion :=
  parseParams querystring (qs.parse querystring).

(** *** Shape of a result *)

(** Number of nested [AND] nodes above the deepest field result. *)
Fixpoint depth (f : Filter) : nat :=
  match f with
  | AND prevs curnt => S (Nat.max (depth prevs) (depth curnt))
  | _ => 0
  end.

(** A field result, as pushed by one iteration: never an [AND] node. *)
Definition isFieldResult (f : Filter) : bool :=
  match f with AND _ _ => false | _ => true end.

(** The field results of a list of filter parameters, when every iteration
    pushes one. *)
Fixpoint fieldResultsOf (querystring : string)
         (filterParams : list (string * ProvidedValue)) : option (list Filter) :=
  match filterParams with
  | [] => Some []
  | entry :: rest =>
      match iteration querystring entry, fieldResultsOf querystring rest with
      | Push fieldResult, Some more => Some (fieldResult :: more)
      | _, _ => None
      end
  end.

(** An error with its [querystring] field blanked, to compare the errors of
    two different querystrings. *)
Definition withoutQuerystring (e : QuerystringParsingError)
  : QuerystringParsingError :=
  {| message := message e;
     querystring := EmptyString;
     paramKey := paramKey e;
     paramValue := paramValue e |}.

Definition forgetQuerystring (c : Completion) : Completion :=
  match c with
  | Return results errors => Return results (map withoutQuerystring errors)
  | Throw error => Throw error
  end.

(** *** The two vocabularies *)

(** The source operator vocabulary: the keys of the mapping table. *)
Definition vocabulary : list string := map fst operatorTable.

Definition sqlMembers : list string :=
  [ SqlOperator.EQUALS; SqlOperator.NOT_EQUALS; SqlOperator.GREATER_THAN;
    SqlOperator.GREATER_OR_EQUAL; SqlOperator.LESS_THAN;
    SqlOperator.LESS_OR_EQUAL; SqlOperator.LIKE; SqlOperator.ILIKE;
    SqlOperator.IN; SqlOperator.NOT_IN; SqlOperator.IS_NULL;
    SqlOperator.IS_NOT_NULL ].

(** The members of an enumeration have pairwise different spellings. *)
Fixpoint distinct (l : list string) : bool :=
  match l with
  | [] => true
  | x :: xs => negb (includes xs x) && distinct xs
  end.

Definition enumsAreDistinct : bool := distinct vocabulary && distinct sqlMembers.

End ParseMongoFilter.

Arguments Value {numbers}.
Arguments Filter {numbers}.
Arguments Completion {numbers}.
Arguments Iteration {numbers}.

(* ================================================================== *)
(** ** The value classifier *)

Module Spec.

Section Classifier.

Variables isNumberString isDateString : string -> bool.

Definition lower (c : ascii) : ascii :=
  let n := nat_of_ascii c in
  if Nat.leb 65 n && Nat.leb n 90 then ascii_of_nat (n + 32) else c.

Fixpoint toLowerCase (s : string) : string :=
  match s with
  | EmptyString => EmptyString
  | String c rest => String (lower c) (toLowerCase rest)
  end.

(** Modelled from the spec: helpers/is-null-string is not part of the
    sources; the specification describes it as recognising the null-sentinel
    string, case-insensitively. *)
Definition isNullString (value : string) : bool :=
  String.eqb (toLowerCase value) "null".

(** Modelled from the spec: the classification of one raw value (section 4.1):
    NUMBER when it parses as a numeric literal, NULL for the null sentinel,
    DATE for a date literal, STRING otherwise.  What counts as a numeric or a
    date literal is left to [isNumberString] and [isDateString]. *)
Definition classify (value : string) : MongoValueType :=
  if isNumberString value then NUMBER
  else if isNullString value then NULL
  else if isDateString value then DATE
  else STRING.

(** A value type other than NULL. *)
Definition isTyped (valueType : MongoValueType) : bool :=
  negb (MongoValueType_eqb valueType NULL).

(** Modelled from the spec: helpers/are-mongo-types-the-same is not part of
    the sources; section 4.1 describes it as returning the single value type
    shared by all elements and as signalling a conflict when two elements
    classify differently.  The caller states what "the same" means, "verify
    all values are the same type (or null)", and coerces null strings element
    by element whatever the shared type is: null values are tolerated among
    the values of one other type, which is then the shared type.  Values that
    are all null share the type NULL. *)
Definition areMongoTypesTheSame (values : list string) : option MongoValueType :=
  match values with
  | [] => None
  | _ :: _ =>
      match filter isTyped (map classify values) with
      | [] => Some NULL
      | valueType :: others =>
          if forallb (MongoValueType_eqb valueType) others then Some valueType
          else None
      end
  end.

End Classifier.

End Spec.

(* ================================================================== *)
(** ** objection/lib: [parseInclude] *)

Module ParseInclude.

(** The JavaScript values [include] and the elements of [includeErrors]
    range over. *)
#[warnings="-register-all"] Inductive JsValue :=
| JsUndefined
| JsNull
| JsString (s : string)
| JsArray (items : list JsValue).

(** helpers/validation *)
Class Validation := {
  isAnArray : JsValue -> bool;
  containsNoErrorFromParser : list JsValue -> bool
}.

(** [{ fx, parameters }] *)
Record Operation := { fx : string; parameters : JsValue }.

(** [{ results, errors }] *)
Record Result := { results : list Operation; errors : list JsValue }.

(** [v.length]; reading it off [undefined] or [null] throws ([None]). *)
Definition length (v : JsValue) : option nat :=
  match v with
  | JsArray items => Some (List.length items)
  | JsString s => Some (String.length s)
  | JsUndefined | JsNull => None
  end.

Section ParseInclude.

Context {validation : Validation}.

(** [None] stands for the [TypeError] of reading [length] off a value that
    has none. *)
Definition parseInclude (include : JsValue) (includeErrors : list JsValue)
  : option Result :=
  if containsNoErrorFromParser includeErrors then
    if negb (isAnArray include) then
      Some {| results := [];
              errors := [JsString "Include field should be an array"] |}
    else
      match length include with
      | None => None
      | Some n =>
          Some {| results := if Nat.ltb 0 n
                             then [ {| fx := "select"; parameters := include |} ]
                             else [];
                  errors := [] |}
      end
  else Some {| results := []; errors := includeErrors |}.

End ParseInclude.

End ParseInclude.

(* ================================================================== *)
(** ** A concrete configuration

    The operator spellings of the README ([$gt] and its siblings), decimal
    natural numbers for [Number], and a tokenizer for plain querystrings
    (parameters separated by [&], a value split at commas; no percent
    encoding, no repeated key).  It serves to run the parser on examples. *)

Module Sample.

#[export] Instance mongo : MongoOperator.enum := {|
  MongoOperator.EQUALS := "$eq";
  MongoOperator.NOT_EQUALS := "$ne";
  MongoOperator.GREATER_THAN := "$gt";
  MongoOperator.GREATER_OR_EQUAL := "$gte";
  MongoOperator.LESS_THAN := "$lt";
  MongoOperator.LESS_OR_EQUAL := "$lte";
  MongoOperator.ILIKE := "ilike";
  MongoOperator.IN := "$in";
  MongoOperator.NOT_IN := "$nin";
  MongoOperator.IS_NULL := "$null"
|}.

#[export] Instance sql : SqlOperator.enum := {|
  SqlOperator.EQUALS := "=";
  SqlOperator.NOT_EQUALS := "<>";
  SqlOperator.GREATER_THAN := ">";
  SqlOperator.GREATER_OR_EQUAL := ">=";
  SqlOperator.LESS_THAN := "<";
  SqlOperator.LESS_OR_EQUAL := "<=";
  SqlOperator.LIKE := "LIKE";
  SqlOperator.ILIKE := "ILIKE";
  SqlOperator.IN := "IN";
  SqlOperator.NOT_IN := "NOT IN";
  SqlOperator.IS_NULL := "IS NULL";
  SqlOperator.IS_NOT_NULL := "IS NOT NULL"
|}.

(** Decimal naturals; [None] plays NaN. *)
#[export] Instance numbers : Js.numbers := {|
  Js.number := option N;
  Js.Number := fun s =>
    match NilEmpty.uint_of_string s with
    | Some u => Some (N.of_uint u)
    | None => None
    end;
  Js.String_ := fun n =>
    match n with
    | Some n => NilZero.string_of_uint (N.to_uint n)
    | None => "NaN"
    end
|}.

(** The number [n] as a coerced value. *)
Definition num (n : N) : @Value numbers := @Num numbers (Some n).

Definition isDigit (c : ascii) : bool :=
  let n := nat_of_ascii c in Nat.leb 48 n && Nat.leb n 57.

Fixpoint allDigits (s : string) : bool :=
  match s with
  | EmptyString => true
  | String c rest => isDigit c && allDigits rest
  end.

Definition isNumberString (s : string) : bool := hasLength s && allDigits s.

(** [dddd-dd-dd] *)
Definition isDateString (s : string) : bool :=
  match split "-" s with
  | [y; m; d] =>
      Nat.eqb (String.length y) 4 && allDigits y &&
      Nat.eqb (String.length m) 2 && allDigits m &&
      Nat.eqb (String.length d) 2 && allDigits d
  | _ => false
  end.

#[export] Instance helpers : Helpers := {|
  areMongoTypesTheSame := Spec.areMongoTypesTheSame isNumberString isDateString;
  isNullString := Spec.isNullString
|}.

(** [key=value]: the text before the first [=] and the text after it. *)
Fixpoint cut (sep : ascii) (s : string) : string * string :=
  match s with
  | EmptyString => (EmptyString, EmptyString)
  | String c rest =>
      if Ascii.eqb c sep then (EmptyString, rest)
      else let '(k, v) := cut sep rest in (String c k, v)
  end.

Definition tokenize (querystring : string) : list (string * ProvidedValue) :=
  map (fun part =>
         let '(key, value) := cut "=" part in
         match split "," value with
         | [single] => (key, Single single)
         | several => (key, Many several)
         end)
      (filter hasLength (split "&" querystring)).

#[export] Instance qsLib : qs.lib := {| qs.parse := tokenize |}.

#[export] Instance validation : ParseInclude.Validation := {|
  ParseInclude.isAnArray := fun v =>
    match v with ParseInclude.JsArray _ => true | _ => false end;
  ParseInclude.containsNoErrorFromParser := fun errors =>
    match errors with [] => true | _ => false end
|}.

End Sample.


(* ================================================================== *)
(** ** Shapes of keys and of results, used to state properties *)

(** The character [c] does not occur in [s]. *)
Fixpoint avoids (c : ascii) (s : string) : bool :=
  match s with
  | EmptyString => true
  | String x rest => negb (Ascii.eqb x c) && avoids c rest
  end.

(** Neither bracket occurs in [s]. *)
Definition bracketFree (s : string) : bool := avoids "[" s && avoids "]" s.

(** The attribute reference a field result carries; a compound has none. *)
Definition attributeRefOf {numbers : Js.numbers} (f : Filter) : option string :=
  match f with
  | Unary _ attributeRef => Some attributeRef
  | Nary _ attributeRef _ => Some attributeRef
  | AND _ _ => None
  end.

(** The field results of a filter, from left to right. *)
Fixpoint flatten {numbers : Js.numbers} (f : Filter) : list Filter :=
  match f with
  | AND prevs curnt => flatten prevs ++ flatten curnt
  | _ => [f]
  end.

(* ================================================================== *)
(** * Properties *)

Open Scope list_scope.

(** ** Object literals as lookup tables *)

Lemma includes_In (l : list string) (x : string) :
  includes l x = true <-> In x l.
Proof.
  unfold includes. rewrite existsb_exists. split.
  - intros [y [Hin Heq]]. apply String.eqb_eq in Heq. now subst.
  - intros Hin. exists x. split; [assumption | apply String.eqb_refl].
Qed.

Lemma includes_false (l : list string) (x : string) :
  includes l x = false <-> ~ In x l.
Proof.
  rewrite <- includes_In. destruct (includes l x); split; congruence.
Qed.

Lemma ownProperty_absent (literal : list (string * string)) (key : string) :
  includes (map fst literal) key = false -> ownProperty literal key = None.
Proof.
  induction literal as [| [k v] rest IH]; simpl; [reflexivity |].
  intros H. apply orb_false_elim in H as [Hk Hrest].
  rewrite (IH Hrest). rewrite String.eqb_sym, Hk. reflexivity.
Qed.

Lemma ownProperty_range (literal : list (string * string)) (key v : string) :
  ownProperty literal key = Some v -> In v (map snd literal).
Proof.
  induction literal as [| [k w] rest IH]; simpl; [discriminate |].
  destruct (ownProperty rest key) as [v' |].
  - intros H. injection H as <-. right. now apply IH.
  - destruct (String.eqb k key); [| discriminate].
    intros H. injection H as <-. now left.
Qed.

Lemma ownProperty_keys (literal : list (string * string)) (key v : string) :
  ownProperty literal key = Some v -> In key (map fst literal).
Proof.
  revert v.
  induction literal as [| [k w] rest IH]; intros v; simpl; [discriminate |].
  destruct (ownProperty rest key) as [v' |] eqn:E.
  - intros _. right. now apply (IH v').
  - destruct (String.eqb k key) eqn:Ek; [| discriminate].
    intros _. left. now apply String.eqb_eq.
Qed.

Lemma distinct_NoDup (l : list string) : distinct l = true -> NoDup l.
Proof.
  induction l as [| x xs IH]; simpl; [constructor |].
  intros H. apply andb_prop in H as [Hx Hxs].
  constructor; [| now apply IH].
  apply includes_false. now destruct (includes xs x).
Qed.

(** With distinct keys every binding of the literal is the one found. *)
Lemma ownProperty_distinct (literal : list (string * string)) (k v : string) :
  distinct (map fst literal) = true ->
  In (k, v) literal -> ownProperty literal k = Some v.
Proof.
  induction literal as [| [k' v'] rest IH]; simpl; [contradiction |].
  intros H Hin. apply andb_prop in H as [Hk' Hrest].
  destruct Hin as [Heq | Hin].
  - injection Heq as -> ->.
    rewrite ownProperty_absent by now destruct (includes (map fst rest) k).
    now rewrite String.eqb_refl.
  - now rewrite (IH Hrest Hin).
Qed.

(** ** The parser *)

Section Properties.

Context {numbers : Js.numbers} {qsLib : qs.lib} {helpers : Helpers}
        {mongo : MongoOperator.enum} {sql : SqlOperator.enum}.

(** *** The loop *)

(** When every iteration pushes, the loop ends in the reduction of all the
    field results pushed so far. *)
Lemma forOf_pushes (q : string) :
  forall filterParams leaves errors results fieldResults,
    fieldResultsOf q filterParams = Some leaves ->
    forOf q filterParams errors results fieldResults =
    match reduce AND (fieldResults ++ leaves) with
    | Some compound => Return (Some compound) errors
    | None => Throw reduceError
    end.
Proof.
  induction filterParams as [| entry rest IH]; simpl; intros leaves errors results acc H.
  - injection H as <-. now rewrite app_nil_r.
  - destruct (iteration q entry) as [e | leaf]; [discriminate |].
    destruct (fieldResultsOf q rest) as [more |]; [| discriminate].
    injection H as <-.
    rewrite (IH more) by reflexivity.
    now rewrite <- app_assoc.
Qed.

(** The first iteration that short-circuits decides the call. *)
Lemma forOf_short_circuit (q : string) :
  forall before leaves entry after e errors results fieldResults,
    fieldResultsOf q before = Some leaves ->
    iteration q entry = ShortCircuit e ->
    forOf q (before ++ entry :: after) errors results fieldResults =
    Return results (errors ++ [e]).
Proof.
  induction before as [| b before IH]; simpl;
    intros leaves entry after e errors results acc Hbefore Hentry.
  - now rewrite Hentry.
  - destruct (iteration q b) as [e' | leaf]; [discriminate |].
    destruct (fieldResultsOf q before) as [more |]; [| discriminate].
    now apply (IH more).
Qed.

(** A list of parameters one of which is rejected splits at the first
    rejected one. *)
Lemma fieldResultsOf_None (q : string) :
  forall filterParams,
    fieldResultsOf q filterParams = None ->
    exists before leaves entry after e,
      filterParams = before ++ entry :: after /\
      fieldResultsOf q before = Some leaves /\
      iteration q entry = ShortCircuit e.
Proof.
  induction filterParams as [| entry rest IH]; simpl; [discriminate |].
  destruct (iteration q entry) as [e | leaf] eqn:E.
  - intros _. now exists [], [], entry, rest, e.
  - destruct (fieldResultsOf q rest) as [more |] eqn:R; [discriminate |].
    intros _. destruct (IH eq_refl) as (before & leaves & x & after & e & -> & Hb & Hx).
    exists (entry :: before), (leaf :: leaves), x, after, e.
    simpl. rewrite E, Hb. auto.
Qed.

Lemma fieldResultsOf_app (q : string) :
  forall before after,
    fieldResultsOf q (before ++ after) =
    match fieldResultsOf q before, fieldResultsOf q after with
    | Some l1, Some l2 => Some (l1 ++ l2)
    | _, _ => None
    end.
Proof.
  induction before as [| b before IH]; simpl; intros after.
  - now destruct (fieldResultsOf q after).
  - destruct (iteration q b) as [e | leaf]; [reflexivity |].
    rewrite IH.
    destruct (fieldResultsOf q before), (fieldResultsOf q after); reflexivity.
Qed.

(** Every error comes from [createError], applied to the parameter at hand. *)
Lemma iteration_error (q param : string) (providedValue : ProvidedValue)
      (e : QuerystringParsingError) :
  iteration q (param, providedValue) = ShortCircuit e ->
  exists message,
    e = createError q (fieldOf param) (providedOperatorOf param)
                    providedValue message.
Proof.
  unfold iteration.
  destruct (areMongoTypesTheSame (valuesOf providedValue)) as [valueType |].
  - destruct (checkForErrors _ _ _) as [message |]; [| discriminate].
    intros H. injection H as <-. now exists message.
  - intros H. injection H as <-. now eexists.
Qed.

(** What an iteration pushes is a field result, never a compound. *)
Lemma iteration_pushes_field_result (q : string) (entry : string * ProvidedValue)
      (leaf : Filter) :
  iteration q entry = Push leaf -> isFieldResult leaf = true.
Proof.
  destruct entry as [param providedValue]. unfold iteration.
  destruct (areMongoTypesTheSame _) as [valueType |]; [| discriminate].
  destruct (checkForErrors _ _ _); [discriminate |].
  intros H. injection H as <-. unfold format.
  now destruct (operatorIsUnary _).
Qed.

Lemma fieldResultsOf_field_results (q : string) :
  forall filterParams leaves,
    fieldResultsOf q filterParams = Some leaves ->
    Forall (fun leaf => isFieldResult leaf = true) leaves.
Proof.
  induction filterParams as [| entry rest IH]; simpl; intros leaves H.
  - injection H as <-. constructor.
  - destruct (iteration q entry) as [e | leaf] eqn:E; [discriminate |].
    destruct (fieldResultsOf q rest) as [more |]; [| discriminate].
    injection H as <-. constructor; [| now apply IH].
    now apply (iteration_pushes_field_result _ _ E).
Qed.

(** *** The left fold *)

Lemma isFieldResult_depth (f : Filter) : isFieldResult f = true -> depth f = 0.
Proof. now destruct f. Qed.

Lemma depth_fold_left_AND :
  forall leaves first,
    Forall (fun leaf => isFieldResult leaf = true) leaves ->
    depth (fold_left AND leaves first) = depth first + List.length leaves.
Proof.
  induction leaves as [| leaf leaves IH]; simpl; intros first H.
  - lia.
  - inversion H as [| ? ? Hleaf Hrest]; subst.
    rewrite (IH _ Hrest). simpl.
    rewrite (isFieldResult_depth _ Hleaf). lia.
Qed.

Lemma fold_left_AND_last (first : Filter) (init : list Filter) (last : Filter) :
  fold_left AND (init ++ [last]) first = AND (fold_left AND init first) last.
Proof. now rewrite fold_left_app. Qed.

(** *** Operator defaults *)

(** C5: a field with no explicit operator gets [IN] when its value is an
    array, whatever the value type; a scalar gets [EQUALS] for NUMBER and DATE,
    [IS_NULL] (the null-equality case) for NULL and [ILIKE] for STRING. *)
Theorem default_operator (param : string) (providedValue : ProvidedValue)
        (valueType : MongoValueType) :
  providedOperatorOf param = None ->
  let operator :=
    determineOperator (providedOperatorOf param) (Array_isArray providedValue)
                      valueType in
  (forall values, providedValue = Many values -> operator = MongoOperator.IN) /\
  (forall value, providedValue = Single value ->
     (valueType = NUMBER \/ valueType = DATE -> operator = MongoOperator.EQUALS) /\
     (valueType = NULL -> operator = MongoOperator.IS_NULL) /\
     (valueType = STRING -> operator = MongoOperator.ILIKE)).
Proof.
  intros Homitted. rewrite Homitted. simpl. split.
  - intros values ->. reflexivity.
  - intros value ->. simpl. repeat split.
    + intros [-> | ->]; reflexivity.
    + intros ->; reflexivity.
    + intros ->; reflexivity.
Qed.

(** *** Short circuit *)

Lemma rejected_field_rejects_the_list (q : string) :
  forall filterParams entry e,
    In entry filterParams ->
    iteration q entry = ShortCircuit e ->
    fieldResultsOf q filterParams = None.
Proof.
  induction filterParams as [| x rest IH]; simpl; intros entry e Hin Hentry.
  - contradiction.
  - destruct Hin as [-> | Hin].
    + now rewrite Hentry.
    + rewrite (IH entry e Hin Hentry). now destruct (iteration q x).
Qed.

(** C4: when some field fails a check, the call returns right after the first
    field that fails: the fields before it were accepted, [results] is
    undefined, the error list holds exactly the one error of that field, and
    the outcome is the same whatever parameters follow it. *)
Theorem first_rejected_field_ends_the_parse
        (q : string) (qsParams : list (string * ProvidedValue))
        (entry : string * ProvidedValue) (e0 : QuerystringParsingError) :
  In entry (filter isFilterParam qsParams) ->
  iteration q entry = ShortCircuit e0 ->
  exists before leaves first after e,
    filter isFilterParam qsParams = before ++ first :: after /\
    fieldResultsOf q before = Some leaves /\
    iteration q first = ShortCircuit e /\
    (exists message,
        e = createError q (fieldOf (fst first)) (providedOperatorOf (fst first))
                        (snd first) message) /\
    parseParams q qsParams = Return None [e] /\
    (forall qsParams' after',
        filter isFilterParam qsParams' = before ++ first :: after' ->
        parseParams q qsParams' = Return None [e]).
Proof.
  intros Hin Hentry.
  pose proof (rejected_field_rejects_the_list q _ _ Hin Hentry) as Hnone.
  destruct (fieldResultsOf_None q _ Hnone)
    as (before & leaves & first & after & e & Hparams & Hbefore & Hfirst).
  exists before, leaves, first, after, e.
  repeat split; try assumption.
  - destruct first as [param providedValue]. now apply iteration_error.
  - unfold parseParams. rewrite Hparams.
    now rewrite (forOf_short_circuit q before first after [] None [] Hbefore Hfirst).
  - intros qsParams' after' Hparams'. unfold parseParams. rewrite Hparams'.
    now rewrite (forOf_short_circuit q before first after' [] None [] Hbefore Hfirst).
Qed.

(** *** The compound filter *)

(** C7: when every field is accepted, the result of one field is that field's
    result itself, and the result of N >= 2 fields is the binary fold
    AND(AND(AND(p1,p2),p3)...,pn), whose right operand is the last field and
    whose depth is N - 1. *)
Theorem results_are_a_left_fold
        (q : string) (qsParams : list (string * ProvidedValue))
        (first : Filter) (others : list Filter) :
  fieldResultsOf q (filter isFilterParam qsParams) = Some (first :: others) ->
  parseParams q qsParams = Return (Some (fold_left AND others first)) [] /\
  (others = [] -> parseParams q qsParams = Return (Some first) []) /\
  (forall init last,
      others = init ++ [last] ->
      parseParams q qsParams =
      Return (Some (AND (fold_left AND init first) last)) []) /\
  depth (fold_left AND others first) = List.length (first :: others) - 1.
Proof.
  intros Hleaves.
  assert (Hparse : parseParams q qsParams =
                   Return (Some (fold_left AND others first)) []).
  { unfold parseParams. now rewrite (forOf_pushes q _ [] None [] Hleaves). }
  repeat split.
  - exact Hparse.
  - intros ->. exact Hparse.
  - intros init last ->. now rewrite Hparse, fold_left_AND_last.
  - pose proof (fieldResultsOf_field_results q _ Hleaves) as Hall.
    inversion Hall as [| ? ? Hfirst Hothers]; subst.
    rewrite (depth_fold_left_AND first Hothers).
    rewrite (isFieldResult_depth _ Hfirst). simpl. lia.
Qed.

(** *** Totality *)

(** C2: a querystring without any filter parameter makes the final [reduce]
    run on an empty array: the call throws instead of returning. *)
Theorem no_filter_parameter_throws (q : string) :
  filter isFilterParam (qs.parse q) = [] ->
  parseMongoFilter q = Throw reduceError.
Proof.
  intros H. unfold parseMongoFilter, parseParams. now rewrite H.
Qed.

(** With at least one filter parameter the call returns. *)
Lemma some_filter_parameter_returns (q : string)
      (qsParams : list (string * ProvidedValue)) :
  filter isFilterParam qsParams <> [] ->
  exists results errors, parseParams q qsParams = Return results errors.
Proof.
  intros H. unfold parseParams.
  destruct (fieldResultsOf q (filter isFilterParam qsParams)) as [leaves |] eqn:E.
  - rewrite (forOf_pushes q _ [] None [] E). simpl.
    destruct leaves as [| first others].
    + destruct (filter isFilterParam qsParams) as [| entry rest]; [congruence |].
      simpl in E. destruct (iteration q entry); [discriminate |].
      destruct (fieldResultsOf q rest); discriminate.
    + now eexists _, _.
  - destruct (fieldResultsOf_None q _ E)
      as (before & leaves & entry & after & e & Hsplit & Hbefore & Hentry).
    rewrite Hsplit, (forOf_short_circuit q before entry after [] None [] Hbefore Hentry).
    now eexists _, _.
Qed.

(** *** The mapping to the SQL domain, for enumerations with distinct members *)

Ltac eqb_facts H :=
  unfold enumsAreDistinct, vocabulary, sqlMembers, operatorTable in H;
  simpl in H;
  repeat rewrite andb_true_iff in H;
  repeat rewrite negb_true_iff in H;
  repeat rewrite orb_false_iff in H;
  decompose [and] H; clear H.

Ltac differ :=
  solve [ apply String.eqb_neq; assumption
        | apply not_eq_sym, String.eqb_neq; assumption ].

(** The table sends each operator of the vocabulary to the operator written
    next to it. *)
Lemma operatorTable_lookup (operator sqlOperator : string) :
  enumsAreDistinct = true ->
  In (operator, sqlOperator) operatorTable ->
  baseSqlOperator operator = Own sqlOperator.
Proof.
  intros H Hin. unfold baseSqlOperator, getProperty.
  rewrite (ownProperty_distinct operatorTable operator sqlOperator); auto.
  unfold enumsAreDistinct in H. now apply andb_prop in H as [H _].
Qed.

(** An operator outside the vocabulary finds no own property in the table. *)
Lemma operatorTable_miss (operator : string) :
  includes vocabulary operator = false ->
  baseSqlOperator operator =
  if includes Object_prototype operator then Inherited operator else Undefined.
Proof.
  intros H. unfold baseSqlOperator, getProperty.
  now rewrite (ownProperty_absent operatorTable operator H).
Qed.

Lemma baseSqlOperator_range (operator v : string) :
  baseSqlOperator operator = Own v -> In v (map snd operatorTable).
Proof.
  unfold baseSqlOperator, getProperty.
  destruct (ownProperty operatorTable operator) as [w |] eqn:E.
  - intros H. injection H as <-. now apply (ownProperty_range _ _ E).
  - now destruct (includes Object_prototype operator).
Qed.

Lemma nullTable_lookup :
  enumsAreDistinct = true ->
  getProperty nullTable SqlOperator.EQUALS = Own SqlOperator.IS_NULL /\
  getProperty nullTable SqlOperator.NOT_EQUALS = Own SqlOperator.IS_NOT_NULL.
Proof.
  intros H. eqb_facts H.
  unfold getProperty, nullTable. simpl.
  rewrite !String.eqb_refl.
  rewrite (String.eqb_sym SqlOperator.NOT_EQUALS SqlOperator.EQUALS).
  match goal with
  | E : String.eqb SqlOperator.EQUALS SqlOperator.NOT_EQUALS = false |- _ =>
      rewrite E
  end.
  split; reflexivity.
Qed.

(** No operator of the table's right-hand column is unary or [LIKE]. *)
Lemma operatorTable_column (v : string) :
  enumsAreDistinct = true ->
  In v (map snd operatorTable) ->
  v <> SqlOperator.IS_NULL /\ v <> SqlOperator.IS_NOT_NULL /\
  v <> SqlOperator.LIKE.
Proof.
  intros H Hin. eqb_facts H.
  simpl in Hin.
  repeat (destruct Hin as [<- | Hin]; [repeat split; differ |]).
  contradiction.
Qed.

Lemma unary_not_LIKE :
  enumsAreDistinct = true ->
  SqlOperator.IS_NULL <> SqlOperator.LIKE /\
  SqlOperator.IS_NOT_NULL <> SqlOperator.LIKE /\
  SqlOperator.IS_NULL <> SqlOperator.IS_NOT_NULL.
Proof.
  intros H. eqb_facts H. repeat split; differ.
Qed.

Lemma baseSqlOperator_not_unary (operator : string) :
  enumsAreDistinct = true ->
  operatorIsUnary (baseSqlOperator operator) = false.
Proof.
  intros H. destruct (baseSqlOperator operator) as [v | name |] eqn:E;
    try reflexivity.
  destruct (@operatorTable_column v H (baseSqlOperator_range _ E))
    as (Hnull & Hnotnull & _).
  unfold operatorIsUnary, includesProperty, includes. simpl.
  apply String.eqb_neq in Hnull, Hnotnull. now rewrite Hnull, Hnotnull.
Qed.

(** The adjusted operator is never the [LIKE] the wildcard step tests for. *)
Lemma adjusted_not_LIKE (operator : string) (valueType : MongoValueType) :
  enumsAreDistinct = true ->
  strictEq (adjustForNull (baseSqlOperator operator) valueType)
           SqlOperator.LIKE = false.
Proof.
  intros H.
  destruct (nullTable_lookup H) as [Heq Hne].
  destruct (unary_not_LIKE H) as (Hn & Hnn & _).
  apply String.eqb_neq in Hn, Hnn.
  unfold adjustForNull.
  destruct (baseSqlOperator operator) as [v | name |] eqn:E; try reflexivity.
  destruct (@operatorTable_column v H (baseSqlOperator_range _ E))
    as (_ & _ & Hlike).
  apply String.eqb_neq in Hlike.
  destruct (includesProperty _ (Own v) && _) eqn:Hadj; [| exact Hlike].
  apply andb_prop in Hadj as [Hin _].
  unfold includesProperty in Hin. apply includes_In in Hin.
  destruct Hin as [<- | [<- | []]].
  - now rewrite Heq.
  - now rewrite Hne.
Qed.

Lemma wildcard_unchanged (sqlOperator : Property) (values : list Value) :
  strictEq sqlOperator SqlOperator.LIKE = false ->
  map (wildcard sqlOperator) values = values.
Proof.
  intros H. unfold wildcard. rewrite H. apply map_id.
Qed.

(** What an accepted field pushes. *)
Lemma iteration_push (q param : string) (providedValue : ProvidedValue)
      (valueType : MongoValueType) (result : Filter) :
  areMongoTypesTheSame (valuesOf providedValue) = Some valueType ->
  iteration q (param, providedValue) = Push result ->
  let operator :=
    determineOperator (providedOperatorOf param) (Array_isArray providedValue)
                      valueType in
  let sqlOperator := adjustForNull (baseSqlOperator operator) valueType in
  checkForErrors (Array_isArray providedValue) valueType operator = None /\
  result = format (fieldOf param) sqlOperator
                  (map (wildcard sqlOperator)
                       (map (coerce valueType) (valuesOf providedValue))).
Proof.
  intros Htype. unfold iteration. rewrite Htype.
  destruct (checkForErrors _ _ _); [discriminate |].
  intros H. injection H as <-. now split.
Qed.

Lemma iteration_accepted (q param : string) (providedValue : ProvidedValue)
      (valueType : MongoValueType) :
  areMongoTypesTheSame (valuesOf providedValue) = Some valueType ->
  let operator :=
    determineOperator (providedOperatorOf param) (Array_isArray providedValue)
                      valueType in
  let sqlOperator := adjustForNull (baseSqlOperator operator) valueType in
  checkForErrors (Array_isArray providedValue) valueType operator = None ->
  iteration q (param, providedValue) =
  Push (format (fieldOf param) sqlOperator
               (map (wildcard sqlOperator)
                    (map (coerce valueType) (valuesOf providedValue)))).
Proof.
  intros Htype operator sqlOperator Hchecks. unfold iteration.
  rewrite Htype. fold operator. now rewrite Hchecks.
Qed.

(** A string is never rejected for the operator [ILIKE]. *)
Lemma string_passes_checks (operator : string) :
  checkForErrors false STRING operator = None.
Proof. reflexivity. Qed.

(** C6: the operator is looked up in the table first; then, and only for a
    value of type NULL, a base [EQUALS] becomes [IS_NULL] and a base
    [NOT_EQUALS] becomes [IS_NOT_NULL], and the field result is the unary one,
    with the attribute reference and no values.  Otherwise the base operator
    is kept.  A scalar null with no operator gives the unary [IS_NULL]. *)
Theorem null_adjustment_follows_the_table
        (q param : string) (providedValue : ProvidedValue)
        (valueType : MongoValueType) (result : Filter) :
  enumsAreDistinct = true ->
  areMongoTypesTheSame (valuesOf providedValue) = Some valueType ->
  iteration q (param, providedValue) = Push result ->
  let operator :=
    determineOperator (providedOperatorOf param) (Array_isArray providedValue)
                      valueType in
  let base := baseSqlOperator operator in
  let attributeRef := ("#" ++ hole (fieldOf param))%string in
  (forall sqlOperator,
      In (operator, sqlOperator) operatorTable -> base = Own sqlOperator) /\
  (valueType = NULL -> base = Own SqlOperator.EQUALS ->
   result = Unary (Own SqlOperator.IS_NULL) attributeRef) /\
  (valueType = NULL -> base = Own SqlOperator.NOT_EQUALS ->
   result = Unary (Own SqlOperator.IS_NOT_NULL) attributeRef) /\
  (valueType <> NULL \/
   (base <> Own SqlOperator.EQUALS /\ base <> Own SqlOperator.NOT_EQUALS) ->
   exists sqlValues, result = Nary base attributeRef sqlValues) /\
  (providedOperatorOf param = None -> Array_isArray providedValue = false ->
   valueType = NULL ->
   result = Unary (Own SqlOperator.IS_NULL) attributeRef).
Proof.
  intros Hdistinct Htype Hpush operator base attributeRef.
  destruct (iteration_push _ _ _ Htype Hpush) as [_ Hresult].
  fold operator in Hresult. fold base in Hresult.
  destruct (nullTable_lookup Hdistinct) as [Heq Hne].
  destruct (unary_not_LIKE Hdistinct) as (_ & _ & Hunary).
  assert (Hequals : valueType = NULL -> base = Own SqlOperator.EQUALS ->
                    result = Unary (Own SqlOperator.IS_NULL) attributeRef).
  { intros -> Hbase. rewrite Hresult, Hbase.
    unfold adjustForNull, includesProperty, includes. simpl.
    rewrite String.eqb_refl. simpl. rewrite Heq.
    unfold format, operatorIsUnary, includesProperty, includes. simpl.
    now rewrite String.eqb_refl. }
  repeat split.
  - intros sqlOperator Hin. now apply operatorTable_lookup.
  - exact Hequals.
  - intros -> Hbase. rewrite Hresult, Hbase.
    unfold adjustForNull, includesProperty, includes. simpl.
    rewrite String.eqb_refl, orb_true_r. simpl. rewrite Hne.
    unfold format, operatorIsUnary, includesProperty, includes. simpl.
    rewrite String.eqb_refl, orb_true_r. reflexivity.
  - intros Hkept.
    assert (Hsame : adjustForNull base valueType = base).
    { unfold adjustForNull.
      destruct (includesProperty _ base && _) eqn:Hadj; [| reflexivity].
      apply andb_prop in Hadj as [Hin Hnull].
      destruct Hkept as [Hnot | [Hnoteq Hnotne]].
      - now destruct valueType.
      - destruct base as [v | name |]; try discriminate.
        unfold includesProperty in Hin. apply includes_In in Hin.
        destruct Hin as [<- | [<- | []]]; congruence. }
    rewrite Hresult, Hsame. unfold format.
    unfold base at 1. rewrite (baseSqlOperator_not_unary operator Hdistinct).
    now eexists.
  - intros Homitted Hscalar ->. apply Hequals; [reflexivity |].
    unfold base, operator. rewrite Homitted, Hscalar. simpl.
    apply operatorTable_lookup; [assumption |]. simpl. auto.
Qed.

(** *** Wildcards *)

Lemma length_append (s1 s2 : string) :
  String.length (s1 ++ s2)%string = String.length s1 + String.length s2.
Proof. induction s1 as [| c s1 IH]; simpl; [reflexivity | now rewrite IH]. Qed.

Lemma wrapped_differs (value : string) :
  Str value <> Str ("%" ++ value ++ "%")%string.
Proof.
  intros H. injection H as H. apply (f_equal String.length) in H.
  simpl in H. rewrite length_append in H. simpl in H. lia.
Qed.

(** C1: with enumerations whose members are distinct, the wildcard step never
    fires: it tests for [SqlOperator.LIKE], which the table never produces
    (a string with no operator is mapped to [SqlOperator.ILIKE]).  The value of
    a scalar string with no operator is therefore inserted as it is, without
    the wildcards. *)
Theorem ilike_value_is_not_wrapped
        (q param value : string) :
  enumsAreDistinct = true ->
  providedOperatorOf param = None ->
  areMongoTypesTheSame [value] = Some STRING ->
  isNullString value = false ->
  iteration q (param, Single value) =
  Push (Nary (Own SqlOperator.ILIKE) ("#" ++ hole (fieldOf param))%string
             [Str value]) /\
  Str value <> Str ("%" ++ value ++ "%")%string /\
  (forall (providedValue : ProvidedValue) (valueType : MongoValueType)
          (sqlOperator : Property) (sqlValues : list Value),
      areMongoTypesTheSame (valuesOf providedValue) = Some valueType ->
      iteration q (param, providedValue) =
      Push (Nary sqlOperator ("#" ++ hole (fieldOf param))%string sqlValues) ->
      sqlValues = map (coerce valueType) (valuesOf providedValue)).
Proof.
  intros Hdistinct Homitted Htype Hnotnull. repeat split.
  - assert (Hbase : baseSqlOperator MongoOperator.ILIKE = Own SqlOperator.ILIKE).
    { apply operatorTable_lookup; [assumption | simpl; auto 10]. }
    pose proof (baseSqlOperator_not_unary MongoOperator.ILIKE Hdistinct) as Hunary.
    rewrite (iteration_accepted q param (Single value) Htype)
      by (rewrite Homitted; apply string_passes_checks).
    rewrite (wildcard_unchanged _ _ (adjusted_not_LIKE _ _ Hdistinct)).
    rewrite Homitted. simpl.
    unfold adjustForNull. rewrite andb_false_r.
    unfold format. rewrite Hunary, Hbase.
    unfold coerce. now rewrite Hnotnull.
  - apply wrapped_differs.
  - intros providedValue valueType sqlOperator sqlValues Htype' Hpush.
    destruct (iteration_push _ _ _ Htype' Hpush) as [_ Hresult].
    rewrite (wildcard_unchanged _ _ (adjusted_not_LIKE _ _ Hdistinct)) in Hresult.
    unfold format in Hresult.
    destruct (operatorIsUnary _); [discriminate |].
    now injection Hresult.
Qed.

(** *** Operators outside the vocabulary *)

(** C10: an explicit operator that is neither in the vocabulary nor the name
    of a member of [Object.prototype], with a value that passes the four
    checks, is looked up to [undefined]; no error is reported and the field
    result is the non-unary one, keyed by [undefined], with the attribute
    reference and the coerced values. *)
Theorem unknown_operator_is_accepted
        (q param operator : string) (providedValue : ProvidedValue)
        (valueType : MongoValueType) :
  providedOperatorOf param = Some operator ->
  includes vocabulary operator = false ->
  includes Object_prototype operator = false ->
  areMongoTypesTheSame (valuesOf providedValue) = Some valueType ->
  checkForErrors (Array_isArray providedValue) valueType operator = None ->
  baseSqlOperator operator = Undefined /\
  iteration q (param, providedValue) =
  Push (Nary Undefined ("#" ++ hole (fieldOf param))%string
             (map (coerce valueType) (valuesOf providedValue))) /\
  (startsWith "filter" param = true ->
   parseParams q [(param, providedValue)] =
   Return (Some (Nary Undefined ("#" ++ hole (fieldOf param))%string
                      (map (coerce valueType) (valuesOf providedValue)))) []).
Proof.
  intros Hop Hvocabulary Hprototype Htype Hchecks.
  assert (Hbase : baseSqlOperator operator = Undefined).
  { now rewrite (operatorTable_miss operator Hvocabulary), Hprototype. }
  assert (Hiteration :
    iteration q (param, providedValue) =
    Push (Nary Undefined ("#" ++ hole (fieldOf param))%string
               (map (coerce valueType) (valuesOf providedValue)))).
  { rewrite (iteration_accepted q param providedValue Htype)
      by now rewrite Hop.
    rewrite Hop. simpl. rewrite Hbase. simpl.
    unfold format, wildcard. simpl. now rewrite map_id. }
  repeat split; [exact Hbase | exact Hiteration |].
  intros Hfilter. unfold parseParams. cbn [filter].
  unfold isFilterParam. cbn [fst]. rewrite Hfilter.
  cbn [forOf]. rewrite Hiteration. reflexivity.
Qed.

(** *** Mixed value types *)




(** *** Parameters that are not filter parameters *)

Lemma createError_withoutQuerystring
      (q q' : string) (field providedOperator : option string)
      (providedValue : ProvidedValue) (text : string) :
  withoutQuerystring (createError q field providedOperator providedValue text) =
  withoutQuerystring (createError q' field providedOperator providedValue text).
Proof. reflexivity. Qed.

(** The querystring only reaches the [querystring] field of an error. *)
Lemma iteration_querystring (q q' : string) (entry : string * ProvidedValue) :
  match iteration q entry, iteration q' entry with
  | Push leaf, Push leaf' => leaf = leaf'
  | ShortCircuit e, ShortCircuit e' =>
      withoutQuerystring e = withoutQuerystring e'
  | _, _ => False
  end.
Proof.
  destruct entry as [param providedValue]. unfold iteration.
  destruct (areMongoTypesTheSame _) as [valueType |]; [| reflexivity].
  destruct (checkForErrors _ _ _); reflexivity.
Qed.

Lemma forOf_querystring (q q' : string) :
  forall filterParams errors errors' results fieldResults,
    map withoutQuerystring errors = map withoutQuerystring errors' ->
    forgetQuerystring (forOf q filterParams errors results fieldResults) =
    forgetQuerystring (forOf q' filterParams errors' results fieldResults).
Proof.
  induction filterParams as [| entry rest IH]; simpl;
    intros errors errors' results acc Herrors.
  - destruct (reduce AND acc); simpl; [now rewrite Herrors | reflexivity].
  - pose proof (iteration_querystring q q' entry) as H.
    destruct (iteration q entry) as [e | leaf],
             (iteration q' entry) as [e' | leaf']; try contradiction.
    + cbn [forgetQuerystring]. rewrite !map_app, Herrors.
      cbn [map]. now rewrite H.
    + subst leaf'. now apply IH.
Qed.

Lemma filter_skips (before after : list (string * ProvidedValue))
      (entry : string * ProvidedValue) :
  isFilterParam entry = false ->
  filter isFilterParam (before ++ entry :: after) =
  filter isFilterParam (before ++ after).
Proof.
  intros H. rewrite !filter_app. simpl. now rewrite H.
Qed.

(** C3: a parameter whose key does not start with [filter] contributes
    nothing: with or without it the call has the same results and the same
    errors, up to the [querystring] field of an error, which records the whole
    input. *)
Theorem other_parameters_are_ignored
        (q q' : string) (before after : list (string * ProvidedValue))
        (key : string) (value : ProvidedValue) :
  startsWith "filter" key = false ->
  forgetQuerystring (parseParams q' (before ++ (key, value) :: after)) =
  forgetQuerystring (parseParams q (before ++ after)) /\
  parseParams q (before ++ (key, value) :: after) = parseParams q (before ++ after).
Proof.
  intros Hkey. unfold parseParams.
  rewrite (filter_skips before after (key, value)) by exact Hkey.
  split; [| reflexivity].
  now apply forOf_querystring.
Qed.

End Properties.

(** ** The include validator *)

Section IncludeProperties.

Import ParseInclude.

Context {validation : Validation}.

(** C9: an empty array, with no error from the parser, is accepted silently:
    no error and no select operation. *)
Theorem empty_include_is_accepted (includeErrors : list JsValue) :
  containsNoErrorFromParser includeErrors = true ->
  isAnArray (JsArray []) = true ->
  parseInclude (JsArray []) includeErrors =
  Some {| results := []; errors := [] |}.
Proof.
  intros Hnone Harray. unfold parseInclude. now rewrite Hnone, Harray.
Qed.

End IncludeProperties.

(* ================================================================== *)
(** * The properties on the concrete configuration *)

Section Examples.

Import Sample.

(** The scenarios of the specification, with the README's spellings. *)
Example scenario_greater_than :
  parseMongoFilter "filter[age][$gt]=10" =
  Return (Some (Nary (Own ">") "#age" [num 10])) [].
Proof. reflexivity. Qed.

Example scenario_array :
  parseMongoFilter "filter[age]=10,20" =
  Return (Some (Nary (Own "IN") "#age" [num 10; num 20])) [].
Proof. reflexivity. Qed.

Example scenario_null :
  parseMongoFilter "filter[name]=null" =
  Return (Some (Unary (Own "IS NULL") "#name")) [].
Proof. reflexivity. Qed.

Example scenario_mixed :
  parseMongoFilter "filter[age]=10,abc" =
  Return None
    [ {| message := "arrays should not mix multiple value types";
         querystring := "filter[age]=10,abc";
         paramKey := "filter[age]";
         paramValue := Many ["10"; "abc"] |} ].
Proof. reflexivity. Qed.

Lemma ilike_value_is_not_wrapped_witness :
  enumsAreDistinct = true /\
  parseMongoFilter "filter[name]=mike" =
  Return (Some (Nary (Own "ILIKE") "#name" [Str "mike"])) [] /\
  iteration "filter[name]=mike" ("filter[name]", Single "mike") =
  Push (Nary (Own "ILIKE") "#name" [Str "mike"]).
Proof.
  split; [reflexivity |]. split; [reflexivity |].
  apply (@ilike_value_is_not_wrapped numbers helpers mongo sql
           "filter[name]=mike" "filter[name]" "mike");
    reflexivity.
Defined.

Lemma no_filter_parameter_throws_witness :
  filter isFilterParam (qs.parse "sort=name") = [] /\
  parseMongoFilter "sort=name" = Throw reduceError.
Proof.
  split; [reflexivity |].
  apply (@no_filter_parameter_throws numbers qsLib helpers mongo sql "sort=name").
  reflexivity.
Defined.

(** C3, as stated, fails: [filterfoo] is not the filter prefix, yet the
    parameter [filterfoo[age]=10] adds a field to the results; and [sort] is
    not the filter prefix, yet adding [sort=name] changes the error that is
    returned. *)
Lemma other_prefix_contributes :
  hd_error (segments "filterfoo[age]") <> Some "filter" /\
  parseMongoFilter "filter[name]=mike&filterfoo[age]=10" =
  Return (Some (AND (Nary (Own "ILIKE") "#name" [Str "mike"])
                    (Nary (Own "=") "#age" [num 10]))) [] /\
  parseMongoFilter "filter[name]=mike" =
  Return (Some (Nary (Own "ILIKE") "#name" [Str "mike"])) [] /\
  hd_error (segments "sort") <> Some "filter" /\
  parseMongoFilter "filter[age]=10,abc&sort=name" <>
  parseMongoFilter "filter[age]=10,abc".
Proof.
  repeat split; try reflexivity; vm_compute; discriminate.
Qed.

Lemma other_parameters_are_ignored_witness :
  startsWith "filter" "sort" = false /\
  forgetQuerystring
    (parseParams "filter[age]=10,abc&sort=name"
                 ([("filter[age]", Many ["10"; "abc"])] ++
                  ("sort", Single "name") :: [])) =
  forgetQuerystring
    (parseParams "filter[age]=10,abc"
                 ([("filter[age]", Many ["10"; "abc"])] ++ [])).
Proof.
  split; [reflexivity |].
  apply (@other_parameters_are_ignored numbers helpers mongo sql
           "filter[age]=10,abc" "filter[age]=10,abc&sort=name"
           [("filter[age]", Many ["10"; "abc"])] []
           "sort" (Single "name")).
  reflexivity.
Defined.

Example scenario_short_circuit :
  parseMongoFilter "filter[age][$gt]=10&filter[name][$gt]=null&filter[x]=1,abc" =
  Return None
    [ createError "filter[age][$gt]=10&filter[name][$gt]=null&filter[x]=1,abc"
        (Some "name") (Some "$gt") (Single "null")
        (dquote ++ "$gt" ++ dquote ++
         " operator should not be used with null value")%string ].
Proof. reflexivity. Qed.

Lemma first_rejected_field_ends_the_parse_witness :
  let q := "filter[age][$gt]=10&filter[name][$gt]=null&filter[x]=1,abc" in
  exists before leaves first after e,
    filter isFilterParam (qs.parse q) = before ++ first :: after /\
    fieldResultsOf q before = Some leaves /\
    iteration q first = ShortCircuit e /\
    (exists message,
        e = createError q (fieldOf (fst first)) (providedOperatorOf (fst first))
                        (snd first) message) /\
    parseParams q (qs.parse q) = Return None [e] /\
    (forall qsParams' after',
        filter isFilterParam qsParams' = before ++ first :: after' ->
        parseParams q qsParams' = Return None [e]).
Proof.
  intros q.
  apply (@first_rejected_field_ends_the_parse numbers helpers mongo sql
           q (qs.parse q) ("filter[x]", Many ["1"; "abc"])
           (createError q (Some "x") None (Many ["1"; "abc"])
                        "arrays should not mix multiple value types")).
  - vm_compute. auto.
  - reflexivity.
Defined.

Lemma default_operator_witness :
  providedOperatorOf "filter[age]" = None /\
  determineOperator (providedOperatorOf "filter[age]")
                    (Array_isArray (Many ["10"; "20"])) NUMBER = "$in".
Proof.
  split; [reflexivity |].
  apply (proj1 (@default_operator mongo "filter[age]" (Many ["10"; "20"]) NUMBER
                  eq_refl) ["10"; "20"] eq_refl).
Defined.

Lemma null_adjustment_follows_the_table_witness :
  enumsAreDistinct = true /\
  iteration "filter[name]=null" ("filter[name]", Single "null") =
  Push (Unary (Own "IS NULL") "#name").
Proof.
  split; [reflexivity |].
  assert (H : iteration "filter[name]=null" ("filter[name]", Single "null") =
              Push (Unary (Own "IS NULL") "#name")) by reflexivity.
  destruct (@null_adjustment_follows_the_table numbers helpers mongo sql
              "filter[name]=null" "filter[name]" (Single "null") NULL
              (Unary (Own "IS NULL") "#name") eq_refl eq_refl H)
    as (_ & _ & _ & _ & Hscalar).
  exact (eq_trans H (f_equal Push (Hscalar eq_refl eq_refl eq_refl))).
Defined.

Lemma results_are_a_left_fold_witness :
  parseMongoFilter "filter[a]=1&filter[b]=x&filter[c]=null" =
  Return (Some (AND (AND (Nary (Own "=") "#a" [num 1])
                         (Nary (Own "ILIKE") "#b" [Str "x"]))
                    (Unary (Own "IS NULL") "#c"))) [].
Proof.
  apply (@results_are_a_left_fold numbers helpers mongo sql
           "filter[a]=1&filter[b]=x&filter[c]=null"
           (qs.parse "filter[a]=1&filter[b]=x&filter[c]=null")
           (Nary (Own "=") "#a" [num 1])
           [Nary (Own "ILIKE") "#b" [Str "x"]; Unary (Own "IS NULL") "#c"]).
  reflexivity.
Defined.



Lemma empty_include_is_accepted_witness :
  ParseInclude.parseInclude (ParseInclude.JsArray []) [] =
  Some {| ParseInclude.results := []; ParseInclude.errors := [] |}.
Proof.
  apply (@empty_include_is_accepted validation []); reflexivity.
Defined.

(** C10, as stated, fails: [toString] is outside the vocabulary and passes the
    checks, but the table lookup finds the member inherited from
    [Object.prototype], not [undefined]. *)
Lemma inherited_member_is_found :
  includes vocabulary "toString" = false /\
  checkForErrors false NUMBER "toString" = None /\
  baseSqlOperator "toString" = Inherited "toString" /\
  baseSqlOperator "toString" <> Undefined /\
  parseMongoFilter "filter[age][toString]=10" =
  Return (Some (Nary (Inherited "toString") "#age" [num 10])) [].
Proof.
  repeat split; try reflexivity. vm_compute. discriminate.
Qed.

Lemma unknown_operator_is_accepted_witness :
  includes vocabulary "bogus" = false /\
  iteration "filter[age][bogus]=10" ("filter[age][bogus]", Single "10") =
  Push (Nary Undefined "#age" [num 10]).
Proof.
  split; [reflexivity |].
  apply (@unknown_operator_is_accepted numbers helpers mongo sql
           "filter[age][bogus]=10" "filter[age][bogus]" "bogus" (Single "10")
           NUMBER);
    reflexivity.
Defined.

End Examples.

(* ================================================================== *)
(** * Further properties of the parser *)

(** ** Splitting a key into its segments *)

Lemma replaceAll_app (c d : ascii) (s1 s2 : string) :
  replaceAll c d (s1 ++ s2)%string =
  (replaceAll c d s1 ++ replaceAll c d s2)%string.
Proof.
  induction s1 as [| x s1 IH]; simpl; [reflexivity | now rewrite IH].
Qed.

Lemma replaceAll_avoids (c d : ascii) (s : string) :
  avoids c s = true -> replaceAll c d s = s.
Proof.
  induction s as [| x s IH]; simpl; [reflexivity |].
  intros H. apply andb_prop in H as [Hx Hs].
  apply negb_true_iff in Hx. now rewrite Hx, IH.
Qed.

(** After the replacement the replaced character is gone, unless it is its
    own replacement. *)
Lemma replaceAll_removes (c d : ascii) (s : string) :
  Ascii.eqb d c = false -> avoids c (replaceAll c d s) = true.
Proof.
  intros Hdc. induction s as [| x s IH]; simpl; [reflexivity |].
  rewrite IH, andb_true_r.
  destruct (Ascii.eqb x c) eqn:E; [now rewrite Hdc | now rewrite E].
Qed.

Lemma split_avoids (sep : ascii) (s : string) :
  avoids sep s = true -> split sep s = [s].
Proof.
  induction s as [| x s IH]; simpl; [reflexivity |].
  intros H. apply andb_prop in H as [Hx Hs].
  apply negb_true_iff in Hx. now rewrite Hx, (IH Hs).
Qed.

Lemma split_app (sep : ascii) (s rest : string) :
  avoids sep s = true ->
  split sep (s ++ String sep rest)%string = s :: split sep rest.
Proof.
  induction s as [| x s IH]; simpl.
  - intros _. now rewrite Ascii.eqb_refl.
  - intros H. apply andb_prop in H as [Hx Hs].
    apply negb_true_iff in Hx. now rewrite Hx, (IH Hs).
Qed.

(** No segment of a split contains the separator, and a character absent
    from the string is absent from every segment. *)
Lemma split_segments_avoid_separator (sep : ascii) (s : string) :
  Forall (fun seg => avoids sep seg = true) (split sep s).
Proof.
  induction s as [| x s IH]; simpl.
  - now repeat constructor.
  - destruct (Ascii.eqb x sep) eqn:E.
    + now constructor.
    + destruct (split sep s) as [| seg segs].
      * repeat constructor. simpl. now rewrite E.
      * inversion IH as [| ? ? Hseg Hsegs]; subst.
        constructor; [| assumption]. simpl. now rewrite E, Hseg.
Qed.

Lemma split_segments_avoid (c sep : ascii) (s : string) :
  avoids c s = true ->
  Forall (fun seg => avoids c seg = true) (split sep s).
Proof.
  induction s as [| x s IH]; simpl.
  - intros _. now repeat constructor.
  - intros H. apply andb_prop in H as [Hx Hs]. specialize (IH Hs).
    destruct (Ascii.eqb x sep).
    + now constructor.
    + destruct (split sep s) as [| seg segs].
      * repeat constructor. simpl. now rewrite Hx.
      * inversion IH as [| ? ? Hseg Hsegs]; subst.
        constructor; [| assumption]. simpl. now rewrite Hx, Hseg.
Qed.

Section Keys.

Context {numbers : Js.numbers} {helpers : Helpers}
        {mongo : MongoOperator.enum} {sql : SqlOperator.enum}.

(** Every segment of a key is non-empty and contains no bracket: neither the
    field nor the operator read off a key can be empty or hold a bracket. *)
Theorem segments_are_clean (param : string) :
  Forall (fun seg => hasLength seg = true /\ bracketFree seg = true)
         (segments param).
Proof.
  unfold segments. apply Forall_forall. intros seg Hin.
  apply filter_In in Hin as [Hin Hlength].
  split; [exact Hlength |].
  unfold bracketFree. apply andb_true_intro. split.
  - pose proof (split_segments_avoid "[" "]" (replaceAll "[" "]" param)
                  (replaceAll_removes "[" "]" param eq_refl)) as H.
    rewrite Forall_forall in H. now apply H.
  - pose proof (split_segments_avoid_separator "]" (replaceAll "[" "]" param)) as H.
    rewrite Forall_forall in H. now apply H.
Qed.

Lemma segments_of_field (prefix field : string) :
  bracketFree prefix = true -> hasLength prefix = true ->
  bracketFree field = true -> hasLength field = true ->
  segments (prefix ++ "[" ++ field ++ "]")%string = [prefix; field].
Proof.
  unfold bracketFree, segments. intros Hp Hpl Hf Hfl.
  apply andb_prop in Hp as [Hp1 Hp2]. apply andb_prop in Hf as [Hf1 Hf2].
  rewrite replaceAll_app. simpl. rewrite replaceAll_app. simpl.
  rewrite !replaceAll_avoids by assumption.
  rewrite (split_app "]" prefix _ Hp2).
  rewrite (split_app "]" field _ Hf2).
  simpl. now rewrite Hpl, Hfl.
Qed.

Lemma segments_of_field_operator (prefix field operator : string) :
  bracketFree prefix = true -> hasLength prefix = true ->
  bracketFree field = true -> hasLength field = true ->
  bracketFree operator = true -> hasLength operator = true ->
  segments (prefix ++ "[" ++ field ++ "][" ++ operator ++ "]")%string =
  [prefix; field; operator].
Proof.
  unfold bracketFree, segments. intros Hp Hpl Hf Hfl Ho Hol.
  apply andb_prop in Hp as [Hp1 Hp2]. apply andb_prop in Hf as [Hf1 Hf2].
  apply andb_prop in Ho as [Ho1 Ho2].
  rewrite replaceAll_app. simpl. rewrite replaceAll_app. simpl.
  rewrite replaceAll_app. simpl.
  rewrite !replaceAll_avoids by assumption.
  rewrite (split_app "]" prefix _ Hp2).
  rewrite (split_app "]" field _ Hf2).
  simpl.
  rewrite (split_app "]" operator _ Ho2).
  simpl. now rewrite Hpl, Hfl, Hol.
Qed.

(** A key [filter[field]] is read back as that field with no operator, and
    the key an error reports for it is the key itself. *)
Theorem key_with_field_round_trip
        (q field message : string) (providedValue : ProvidedValue) :
  bracketFree field = true -> hasLength field = true ->
  let param := ("filter[" ++ field ++ "]")%string in
  fieldOf param = Some field /\
  providedOperatorOf param = None /\
  paramKey (createError q (fieldOf param) (providedOperatorOf param)
                        providedValue message) = param.
Proof.
  intros Hf Hfl param.
  assert (Hsegments : segments param = ["filter"; field]).
  { apply (segments_of_field "filter" field); auto. }
  unfold fieldOf, providedOperatorOf. rewrite Hsegments. simpl.
  repeat split.
Qed.

(** A key [filter[field][operator]] is read back as that field and that
    operator, and the key an error reports for it is the key itself. *)
Theorem key_with_operator_round_trip
        (q field operator message : string) (providedValue : ProvidedValue) :
  bracketFree field = true -> hasLength field = true ->
  bracketFree operator = true -> hasLength operator = true ->
  let param := ("filter[" ++ field ++ "][" ++ operator ++ "]")%string in
  fieldOf param = Some field /\
  providedOperatorOf param = Some operator /\
  paramKey (createError q (fieldOf param) (providedOperatorOf param)
                        providedValue message) = param.
Proof.
  intros Hf Hfl Ho Hol param.
  assert (Hsegments : segments param = ["filter"; field; operator]).
  { apply (segments_of_field_operator "filter" field operator); auto. }
  unfold fieldOf, providedOperatorOf. rewrite Hsegments. simpl.
  repeat split.
Qed.

End Keys.

(** ** The compatibility checks *)

Section Checks.

Context {numbers : Js.numbers} {helpers : Helpers}
        {mongo : MongoOperator.enum} {sql : SqlOperator.enum}.

Ltac distinct_facts H :=
  unfold enumsAreDistinct, vocabulary, sqlMembers, operatorTable in H;
  simpl in H;
  repeat rewrite andb_true_iff in H;
  repeat rewrite negb_true_iff in H;
  repeat rewrite orb_false_iff in H;
  decompose [and] H; clear H;
  repeat match goal with
         | E : String.eqb _ _ = false |- _ => apply String.eqb_neq in E
         end.

Ltac decide_eqb :=
  repeat match goal with
         | |- context [String.eqb ?a ?a] => rewrite (String.eqb_refl a)
         | |- context [String.eqb ?a ?b] =>
             replace (String.eqb a b) with false
               by (symmetry; apply String.eqb_neq; congruence)
         end.

Ltac reflect_includes E :=
  match type of E with
  | includes _ _ = true => apply includes_In in E
  | includes _ _ = false => apply includes_false in E
  end.

Ltac reflect_eqb E :=
  match type of E with
  | String.eqb _ _ = true => apply String.eqb_eq in E
  | String.eqb _ _ = false => apply String.eqb_neq in E
  end.

(** What passing the four checks means. *)
Lemma checkForErrors_None_iff (providedValueWasAnArray : bool)
      (valueType : MongoValueType) (operator : string) :
  checkForErrors providedValueWasAnArray valueType operator = None <->
  (providedValueWasAnArray = true ->
   operator = MongoOperator.IN \/ operator = MongoOperator.NOT_IN) /\
  (valueType = NULL ->
   ~ In operator [MongoOperator.GREATER_THAN; MongoOperator.GREATER_OR_EQUAL;
                  MongoOperator.LESS_THAN; MongoOperator.LESS_OR_EQUAL;
                  MongoOperator.ILIKE]) /\
  (valueType = NUMBER \/ valueType = DATE -> operator <> MongoOperator.ILIKE).
Proof.
  unfold checkForErrors.
  destruct (includes [MongoOperator.IN; MongoOperator.NOT_IN] operator) eqn:Eset;
  destruct (includes [MongoOperator.GREATER_THAN; MongoOperator.GREATER_OR_EQUAL;
                      MongoOperator.LESS_THAN; MongoOperator.LESS_OR_EQUAL;
                      MongoOperator.ILIKE] operator) eqn:Eorder;
  destruct (String.eqb operator MongoOperator.ILIKE) eqn:Elike;
  reflect_includes Eset; reflect_includes Eorder; reflect_eqb Elike;
  destruct providedValueWasAnArray, valueType; simpl;
  (split;
   [ intros H; try discriminate H; repeat split; intros;
     try discriminate; try assumption;
     try (simpl in Eset; intuition congruence);
     try (match goal with K : _ \/ _ |- _ => destruct K; discriminate end)
   | intros (Hset & Hnull & Hlike);
     try reflexivity;
     try (exfalso; apply Eset; simpl; destruct (Hset eq_refl); auto; fail);
     try (exfalso; apply (Hnull eq_refl); assumption);
     try (exfalso; apply Hlike; auto; fail) ]).
Qed.

(** A field is accepted exactly when its values share a type and the operator
    in force suits the value: an array only with [IN] or [NOT_IN], a null
    with neither an ordering operator nor [ILIKE], a number or a date with
    anything but [ILIKE]. *)
Theorem field_is_accepted_iff
        (q param : string) (providedValue : ProvidedValue) :
  (exists leaf, iteration q (param, providedValue) = Push leaf) <->
  exists valueType,
    areMongoTypesTheSame (valuesOf providedValue) = Some valueType /\
    let operator :=
      determineOperator (providedOperatorOf param) (Array_isArray providedValue)
                        valueType in
    (Array_isArray providedValue = true ->
     operator = MongoOperator.IN \/ operator = MongoOperator.NOT_IN) /\
    (valueType = NULL ->
     ~ In operator [MongoOperator.GREATER_THAN; MongoOperator.GREATER_OR_EQUAL;
                    MongoOperator.LESS_THAN; MongoOperator.LESS_OR_EQUAL;
                    MongoOperator.ILIKE]) /\
    (valueType = NUMBER \/ valueType = DATE -> operator <> MongoOperator.ILIKE).
Proof.
  split.
  - intros [leaf Hpush]. unfold iteration in Hpush.
    destruct (areMongoTypesTheSame _) as [valueType |] eqn:Htype;
      [| discriminate].
    exists valueType. split; [reflexivity |].
    apply checkForErrors_None_iff.
    now destruct (checkForErrors _ _ _).
  - intros (valueType & Htype & Hchecks).
    apply checkForErrors_None_iff in Hchecks.
    rewrite (iteration_accepted q param providedValue Htype Hchecks).
    now eexists.
Qed.

(** An array value with an explicit operator other than [IN] and [NOT_IN] is
    rejected by the first check, whatever the type of its values and whether
    or not the operator belongs to the vocabulary. *)
Theorem array_with_other_operator_is_rejected
        (q param operator : string) (values : list string)
        (valueType : MongoValueType) :
  providedOperatorOf param = Some operator ->
  areMongoTypesTheSame values = Some valueType ->
  operator <> MongoOperator.IN ->
  operator <> MongoOperator.NOT_IN ->
  iteration q (param, Many values) =
  ShortCircuit
    (createError q (fieldOf param) (Some operator) (Many values)
                 (dquote ++ operator ++ dquote ++
                  " operator should not be used with array value")%string).
Proof.
  intros Hop Htype Hin Hnin. unfold iteration. simpl.
  rewrite Htype, Hop. simpl. unfold checkForErrors. simpl.
  apply String.eqb_neq in Hin, Hnin. now rewrite Hin, Hnin.
Qed.

(** A scalar null with an ordering operator or [ILIKE], and a scalar number
    or date with [ILIKE], are rejected, each with the message of its check. *)
Theorem scalar_with_unsuitable_operator_is_rejected
        (q param operator value : string) (valueType : MongoValueType) :
  providedOperatorOf param = Some operator ->
  areMongoTypesTheSame [value] = Some valueType ->
  let rejected text :=
    iteration q (param, Single value) =
    ShortCircuit (createError q (fieldOf param) (Some operator) (Single value)
                              (dquote ++ operator ++ dquote ++ text)%string) in
  (valueType = NULL ->
   In operator [MongoOperator.GREATER_THAN; MongoOperator.GREATER_OR_EQUAL;
                MongoOperator.LESS_THAN; MongoOperator.LESS_OR_EQUAL;
                MongoOperator.ILIKE] ->
   rejected " operator should not be used with null value") /\
  (valueType = NUMBER -> operator = MongoOperator.ILIKE ->
   rejected " operator should not be used with number values") /\
  (valueType = DATE -> operator = MongoOperator.ILIKE ->
   rejected " operator should not be used with date values").
Proof.
  intros Hop Htype rejected. unfold rejected, iteration.
  cbn [valuesOf Array_isArray]. rewrite Htype, Hop.
  unfold checkForErrors.
  cbn [determineOperator andb].
  repeat split.
  - intros -> Hin. apply includes_In in Hin.
    cbn [MongoValueType_eqb andb]. now rewrite Hin.
  - intros -> ->. cbn [MongoValueType_eqb andb]. now rewrite String.eqb_refl.
  - intros -> ->. cbn [MongoValueType_eqb andb]. now rewrite String.eqb_refl.
Qed.

(** A scalar string is accepted with every operator token, the ordering
    operators and the tokens outside the vocabulary included. *)
Theorem string_is_accepted_with_any_operator
        (q param value : string) :
  areMongoTypesTheSame [value] = Some STRING ->
  exists leaf,
    iteration q (param, Single value) = Push leaf /\
    attributeRefOf leaf = Some ("#" ++ hole (fieldOf param))%string.
Proof.
  intros Htype.
  rewrite (iteration_accepted q param (Single value) Htype)
    by apply string_passes_checks.
  eexists. split; [reflexivity |].
  unfold format. now destruct (operatorIsUnary _).
Qed.

(** With the default operator the checks never fire. *)
Lemma default_passes_checks (providedValue : ProvidedValue)
      (valueType : MongoValueType) :
  enumsAreDistinct = true ->
  checkForErrors (Array_isArray providedValue) valueType
                 (determineOperator None (Array_isArray providedValue) valueType)
  = None.
Proof.
  intros H. distinct_facts H.
  destruct providedValue, valueType; unfold checkForErrors, includes; simpl;
    decide_eqb; reflexivity.
Qed.

(** A field with no explicit operator whose values share a type is never
    rejected.  An array gives [IN] over the coerced values; a scalar gives
    [EQUALS] for a number or a date, the unary [IS_NULL] for a null and
    [ILIKE] for a string. *)
Theorem omitted_operator_is_never_rejected
        (q param : string) (providedValue : ProvidedValue)
        (valueType : MongoValueType) :
  enumsAreDistinct = true ->
  providedOperatorOf param = None ->
  areMongoTypesTheSame (valuesOf providedValue) = Some valueType ->
  let attributeRef := ("#" ++ hole (fieldOf param))%string in
  let sqlValues := map (coerce valueType) (valuesOf providedValue) in
  iteration q (param, providedValue) =
  Push match providedValue, valueType with
       | Many _, _ => Nary (Own SqlOperator.IN) attributeRef sqlValues
       | Single _, NULL => Unary (Own SqlOperator.IS_NULL) attributeRef
       | Single _, STRING => Nary (Own SqlOperator.ILIKE) attributeRef sqlValues
       | Single _, _ => Nary (Own SqlOperator.EQUALS) attributeRef sqlValues
       end.
Proof.
  intros Hdistinct Homitted Htype attributeRef sqlValues.
  rewrite (iteration_accepted q param providedValue Htype)
    by (rewrite Homitted; now apply default_passes_checks).
  rewrite (wildcard_unchanged _ _ (adjusted_not_LIKE _ _ Hdistinct)).
  rewrite Homitted. f_equal.
  pose proof (fun operator sqlOperator =>
                @operatorTable_lookup mongo sql operator sqlOperator Hdistinct)
    as Hlookup.
  destruct (nullTable_lookup Hdistinct) as [Hnull _].
  assert (Hin : baseSqlOperator MongoOperator.IN = Own SqlOperator.IN)
    by (apply Hlookup; simpl; auto 12).
  assert (Heq : baseSqlOperator MongoOperator.EQUALS = Own SqlOperator.EQUALS)
    by (apply Hlookup; simpl; auto 12).
  assert (Hisnull : baseSqlOperator MongoOperator.IS_NULL = Own SqlOperator.EQUALS)
    by (apply Hlookup; simpl; auto 12).
  assert (Hilike : baseSqlOperator MongoOperator.ILIKE = Own SqlOperator.ILIKE)
    by (apply Hlookup; simpl; auto 12).
  pose proof (baseSqlOperator_not_unary MongoOperator.IN Hdistinct) as Uin.
  pose proof (baseSqlOperator_not_unary MongoOperator.EQUALS Hdistinct) as Ueq.
  pose proof (baseSqlOperator_not_unary MongoOperator.ILIKE Hdistinct) as Ulike.
  rewrite Hin in Uin. rewrite Heq in Ueq. rewrite Hilike in Ulike.
  distinct_facts Hdistinct.
  destruct providedValue as [value | values], valueType; simpl;
    rewrite ?Hin, ?Heq, ?Hisnull, ?Hilike;
    unfold adjustForNull, includesProperty, includes; simpl;
    decide_eqb; simpl; rewrite ?Hnull;
    unfold format; rewrite ?Uin, ?Ueq, ?Ulike; try reflexivity.
  unfold operatorIsUnary, includesProperty, includes. simpl.
  now rewrite String.eqb_refl.
Qed.

(** An operator of the vocabulary given explicitly, with a value that is not
    null and passes the checks, is replaced by the operator the table pairs
    it with; the values are the coerced ones. *)
Theorem explicit_operator_is_mapped
        (q param operator sqlOperator : string) (providedValue : ProvidedValue)
        (valueType : MongoValueType) :
  enumsAreDistinct = true ->
  providedOperatorOf param = Some operator ->
  In (operator, sqlOperator) operatorTable ->
  areMongoTypesTheSame (valuesOf providedValue) = Some valueType ->
  valueType <> NULL ->
  checkForErrors (Array_isArray providedValue) valueType operator = None ->
  iteration q (param, providedValue) =
  Push (Nary (Own sqlOperator) ("#" ++ hole (fieldOf param))%string
             (map (coerce valueType) (valuesOf providedValue))).
Proof.
  intros Hdistinct Hop Hin Htype Hnotnull Hchecks.
  rewrite (iteration_accepted q param providedValue Htype)
    by now rewrite Hop.
  rewrite (wildcard_unchanged _ _ (adjusted_not_LIKE _ _ Hdistinct)).
  rewrite Hop. simpl.
  pose proof (baseSqlOperator_not_unary operator Hdistinct) as Hunary.
  rewrite (@operatorTable_lookup mongo sql operator sqlOperator Hdistinct Hin) in *.
  unfold adjustForNull.
  replace (MongoValueType_eqb valueType NULL) with false
    by now destruct valueType.
  rewrite andb_false_r. unfold format. now rewrite Hunary.
Qed.

End Checks.

(** ** The reported key and the real key *)

Lemma append_prefix_inj (a b x y : string) :
  String.length a = String.length b ->
  (a ++ x)%string = (b ++ y)%string -> a = b.
Proof.
  revert b. induction a as [| c a IH]; intros [| d b]; simpl;
    try discriminate; [reflexivity |].
  intros Hlen Heq. injection Hlen as Hlen. injection Heq as -> Heq.
  f_equal. now apply IH.
Qed.

Section ReportedKey.

Context {numbers : Js.numbers} {helpers : Helpers}
        {mongo : MongoOperator.enum} {sql : SqlOperator.enum}.

(** The key an error reports is rebuilt from the field alone: for a key
    [prefix[field]] it is [filter[field]], so it differs from the key that
    was sent as soon as the prefix is longer than [filter]. *)
Theorem reported_key_ignores_the_prefix
        (q prefix field message : string) (providedValue : ProvidedValue) :
  bracketFree prefix = true -> hasLength prefix = true ->
  bracketFree field = true -> hasLength field = true ->
  let param := (prefix ++ "[" ++ field ++ "]")%string in
  let reported :=
    paramKey (createError q (fieldOf param) (providedOperatorOf param)
                          providedValue message) in
  reported = ("filter[" ++ field ++ "]")%string /\
  (prefix <> "filter" -> reported <> param).
Proof.
  intros Hp Hpl Hf Hfl param reported.
  assert (Hreported : reported = ("filter[" ++ field ++ "]")%string).
  { unfold reported, fieldOf, providedOperatorOf.
    unfold param. rewrite (segments_of_field prefix field Hp Hpl Hf Hfl).
    reflexivity. }
  split; [exact Hreported |].
  intros Hprefix Heq. apply Hprefix.
  rewrite Hreported in Heq. unfold param in Heq.
  symmetry.
  apply (@append_prefix_inj "filter" prefix ("[" ++ field ++ "]")%string
                            ("[" ++ field ++ "]")%string); [| exact Heq].
  apply (f_equal String.length) in Heq.
  change ("filter[" ++ field ++ "]")%string
    with ("filter" ++ ("[" ++ field ++ "]"))%string in Heq.
  rewrite !length_append in Heq. simpl. simpl in Heq. lia.
Qed.

(** A key without any bracket names no field: the field is [undefined], in
    the attribute reference of the result and in the key an error reports. *)
Theorem key_without_bracket_has_no_field
        (q key message : string) (providedValue : ProvidedValue) :
  bracketFree key = true ->
  fieldOf key = None /\
  providedOperatorOf key = None /\
  paramKey (createError q (fieldOf key) (providedOperatorOf key)
                        providedValue message) = "filter[undefined]" /\
  (forall leaf, iteration q (key, providedValue) = Push leaf ->
                attributeRefOf leaf = Some "#undefined").
Proof.
  intros Hkey.
  assert (Hsegments : segments key = [] \/ segments key = [key]).
  { unfold segments, bracketFree in *. apply andb_prop in Hkey as [H1 H2].
    rewrite (replaceAll_avoids "[" "]" key H1), (split_avoids "]" key H2).
    simpl. destruct (hasLength key); auto. }
  assert (Hfield : fieldOf key = None)
    by (unfold fieldOf; destruct Hsegments as [-> | ->]; reflexivity).
  assert (Hoperator : providedOperatorOf key = None)
    by (unfold providedOperatorOf; destruct Hsegments as [-> | ->]; reflexivity).
  repeat split; try assumption.
  - now rewrite Hfield, Hoperator.
  - intros leaf Hpush. unfold iteration in Hpush.
    destruct (areMongoTypesTheSame _); [| discriminate].
    destruct (checkForErrors _ _ _); [discriminate |].
    injection Hpush as <-. rewrite Hfield. unfold format.
    now destruct (operatorIsUnary _).
Qed.

End ReportedKey.

(** ** What a call returns *)

Section Outcomes.

Context {numbers : Js.numbers} {qsLib : qs.lib} {helpers : Helpers}
        {mongo : MongoOperator.enum} {sql : SqlOperator.enum}.

(** The three ways a call can end. *)
Lemma parseParams_outcome (q : string) (qsParams : list (string * ProvidedValue)) :
  (filter isFilterParam qsParams = [] /\
   parseParams q qsParams = Throw reduceError) \/
  (exists first others,
      fieldResultsOf q (filter isFilterParam qsParams) = Some (first :: others) /\
      parseParams q qsParams = Return (Some (fold_left AND others first)) []) \/
  (exists before leaves entry after e,
      filter isFilterParam qsParams = before ++ entry :: after /\
      fieldResultsOf q before = Some leaves /\
      iteration q entry = ShortCircuit e /\
      parseParams q qsParams = Return None [e]).
Proof.
  unfold parseParams.
  destruct (fieldResultsOf q (filter isFilterParam qsParams)) as [leaves |] eqn:E.
  - rewrite (forOf_pushes q _ [] None [] E). simpl.
    destruct leaves as [| first others].
    + left. split; [| reflexivity].
      destruct (filter isFilterParam qsParams) as [| entry rest]; [reflexivity |].
      simpl in E. destruct (iteration q entry); [discriminate |].
      destruct (fieldResultsOf q rest); discriminate.
    + right. left. now exists first, others.
  - right. right.
    destruct (fieldResultsOf_None q _ E)
      as (before & leaves & entry & after & e & Hsplit & Hbefore & Hentry).
    exists before, leaves, entry, after, e. repeat split; try assumption.
    rewrite Hsplit.
    now rewrite (forOf_short_circuit q before entry after [] None [] Hbefore Hentry).
Qed.

(** A call that returns gives either a filter and no error, or no filter and
    exactly one error: never both, never neither, never two errors. *)
Theorem returns_a_filter_or_one_error
        (q : string) (qsParams : list (string * ProvidedValue))
        (results : option Filter) (errors : list QuerystringParsingError) :
  parseParams q qsParams = Return results errors ->
  (exists compound, results = Some compound /\ errors = []) \/
  (results = None /\ exists e, errors = [e]).
Proof.
  intros H.
  destruct (parseParams_outcome q qsParams)
    as [[_ Hthrow] | [(first & others & _ & Hok) | (b & l & x & a & e & _ & _ & _ & Herr)]].
  - congruence.
  - left. rewrite Hok in H. injection H as <- <-. now eexists.
  - right. rewrite Herr in H. injection H as <- <-. split; [reflexivity |].
    now exists e.
Qed.

(** The call throws exactly when the querystring has no parameter whose key
    starts with [filter]; it never throws for another reason. *)
Theorem throws_iff_no_filter_parameter (q : string) :
  (exists error, parseMongoFilter q = Throw error) <->
  filter isFilterParam (qs.parse q) = [].
Proof.
  unfold parseMongoFilter. split.
  - intros [error H].
    destruct (parseParams_outcome q (qs.parse q))
      as [[Hnone _] | [(first & others & _ & Hok) | (b & l & x & a & e & _ & _ & _ & Herr)]];
      [assumption | congruence | congruence].
  - intros H. exists reduceError. unfold parseParams. now rewrite H.
Qed.

(** Every error that is returned carries the querystring of the call and is
    built from one of its filter parameters: that parameter's value, and the
    key rebuilt from that parameter's field and operator. *)
Theorem errors_come_from_a_filter_parameter
        (q : string) (qsParams : list (string * ProvidedValue))
        (results : option Filter) (errors : list QuerystringParsingError)
        (e : QuerystringParsingError) :
  parseParams q qsParams = Return results errors ->
  In e errors ->
  querystring e = q /\
  exists param providedValue text,
    In (param, providedValue) qsParams /\
    startsWith "filter" param = true /\
    e = createError q (fieldOf param) (providedOperatorOf param)
                    providedValue text.
Proof.
  intros H Hin.
  destruct (parseParams_outcome q qsParams)
    as [[_ Hthrow] | [(first & others & _ & Hok) | (b & l & x & a & e' & Hsplit & _ & Hx & Herr)]].
  - congruence.
  - rewrite Hok in H. injection H as <- <-. contradiction.
  - rewrite Herr in H. injection H as <- <-.
    destruct Hin as [<- | []].
    destruct x as [param providedValue].
    destruct (iteration_error _ _ _ Hx) as [text ->].
    split; [reflexivity |].
    exists param, providedValue, text.
    assert (Hmember : In (param, providedValue) (filter isFilterParam qsParams))
      by (rewrite Hsplit; apply in_or_app; right; now left).
    apply filter_In in Hmember as [Hmember Hfilter].
    now repeat split.
Qed.

(** Adding a filter parameter at the end of a querystring that parses to a
    filter puts that filter to the left of an [AND] node and the new field to
    its right; if the new field is rejected, its error replaces the result. *)
Theorem appending_a_filter_parameter
        (q : string) (qsParams : list (string * ProvidedValue))
        (entry : string * ProvidedValue) (compound : Filter) :
  isFilterParam entry = true ->
  parseParams q qsParams = Return (Some compound) [] ->
  parseParams q (qsParams ++ [entry]) =
  match iteration q entry with
  | Push leaf => Return (Some (AND compound leaf)) []
  | ShortCircuit e => Return None [e]
  end.
Proof.
  intros Hentry H.
  destruct (parseParams_outcome q qsParams)
    as [[_ Hthrow] | [(first & others & Hleaves & Hok) | (b & l & x & a & e & _ & _ & _ & Herr)]];
    [congruence | | congruence].
  rewrite Hok in H. injection H as <-.
  unfold parseParams. rewrite filter_app. simpl. rewrite Hentry.
  destruct (iteration q entry) as [e | leaf] eqn:E.
  - now rewrite (forOf_short_circuit q _ entry [] [] None [] Hleaves E).
  - assert (Hall : fieldResultsOf q (filter isFilterParam qsParams ++ [entry]) =
                   Some ((first :: others) ++ [leaf])).
    { rewrite fieldResultsOf_app, Hleaves. simpl. now rewrite E. }
    rewrite (forOf_pushes q _ [] None [] Hall). simpl.
    now rewrite fold_left_app.
Qed.

Lemma flatten_fold_left_AND :
  forall others first,
    flatten (fold_left AND others first) =
    flatten first ++ concat (map flatten others).
Proof.
  induction others as [| leaf others IH]; simpl; intros first.
  - now rewrite app_nil_r.
  - rewrite IH. simpl. now rewrite <- app_assoc.
Qed.

Lemma flatten_field_results (leaves : list Filter) :
  Forall (fun leaf => isFieldResult leaf = true) leaves ->
  concat (map flatten leaves) = leaves.
Proof.
  induction 1 as [| leaf leaves Hleaf _ IH]; simpl; [reflexivity |].
  rewrite IH. now destruct leaf.
Qed.

Lemma fieldResultsOf_length (q : string) :
  forall filterParams leaves,
    fieldResultsOf q filterParams = Some leaves ->
    List.length leaves = List.length filterParams.
Proof.
  induction filterParams as [| entry rest IH]; simpl; intros leaves H.
  - now injection H as <-.
  - destruct (iteration q entry); [discriminate |].
    destruct (fieldResultsOf q rest) as [more |]; [| discriminate].
    injection H as <-. simpl. now rewrite (IH more).
Qed.

(** Read from left to right, the filter that is returned lists the field
    results in the order of the filter parameters, one for each of them. *)
Theorem filter_lists_the_fields_in_order
        (q : string) (qsParams : list (string * ProvidedValue))
        (compound : Filter) (errors : list QuerystringParsingError) :
  parseParams q qsParams = Return (Some compound) errors ->
  fieldResultsOf q (filter isFilterParam qsParams) = Some (flatten compound) /\
  List.length (flatten compound) =
  List.length (filter isFilterParam qsParams).
Proof.
  intros H.
  destruct (parseParams_outcome q qsParams)
    as [[_ Hthrow] | [(first & others & Hleaves & Hok) | (b & l & x & a & e & _ & _ & _ & Herr)]];
    [congruence | | congruence].
  rewrite Hok in H. injection H as <- _.
  assert (Hflat : flatten (fold_left AND others first) = first :: others).
  { rewrite flatten_fold_left_AND.
    pose proof (fieldResultsOf_field_results q _ Hleaves) as Hall.
    inversion Hall as [| ? ? Hfirst Hothers]; subst.
    rewrite (flatten_field_results Hothers). now destruct first. }
  rewrite Hflat. split; [exact Hleaves |].
  now apply (fieldResultsOf_length q).
Qed.

End Outcomes.

(** ** The include validator, case by case *)

Section IncludeCases.

Import ParseInclude.

Context {validation : Validation}.

(** Without parser errors, a value that is not an array is answered with the
    one error message and no operation. *)
Theorem include_that_is_no_array_is_an_error
        (include : JsValue) (includeErrors : list JsValue) :
  containsNoErrorFromParser includeErrors = true ->
  isAnArray include = false ->
  parseInclude include includeErrors =
  Some {| results := [];
          errors := [JsString "Include field should be an array"] |}.
Proof.
  intros Hnone Harray. unfold parseInclude. now rewrite Hnone, Harray.
Qed.

(** Without parser errors, an array with at least one element is answered
    with a single [select] operation whose parameters are the array itself. *)
Theorem include_array_is_selected
        (item : JsValue) (items includeErrors : list JsValue) :
  containsNoErrorFromParser includeErrors = true ->
  isAnArray (JsArray (item :: items)) = true ->
  parseInclude (JsArray (item :: items)) includeErrors =
  Some {| results := [ {| fx := "select";
                          parameters := JsArray (item :: items) |} ];
          errors := [] |}.
Proof.
  intros Hnone Harray. unfold parseInclude. now rewrite Hnone, Harray.
Qed.

(** Errors of the parser are handed back unchanged, with no operation,
    whatever the include value is; the value is not even looked at. *)
Theorem parser_errors_pass_through
        (include : JsValue) (includeErrors : list JsValue) :
  containsNoErrorFromParser includeErrors = false ->
  parseInclude include includeErrors =
  Some {| results := []; errors := includeErrors |}.
Proof.
  intros Hsome. unfold parseInclude. now rewrite Hsome.
Qed.

(** Whatever is returned holds at most one operation, a [select] of the
    include value itself, and never an operation together with an error. *)
Theorem include_result_shape
        (include : JsValue) (includeErrors : list JsValue) (r : Result) :
  parseInclude include includeErrors = Some r ->
  (results r = [] \/
   results r = [ {| fx := "select"; parameters := include |} ]) /\
  (results r <> [] -> errors r = []) /\
  (errors r = [] \/
   errors r = [JsString "Include field should be an array"] \/
   errors r = includeErrors).
Proof.
  unfold parseInclude.
  destruct (containsNoErrorFromParser includeErrors).
  - destruct (isAnArray include).
    + simpl. destruct (length include) as [n |]; [| discriminate].
      intros H. injection H as <-. simpl.
      destruct (Nat.ltb 0 n); auto.
    + simpl. intros H. injection H as <-. simpl.
      repeat split; auto. congruence.
  - intros H. injection H as <-. simpl. repeat split; auto. congruence.
Qed.

(** When [isAnArray] accepts arrays only, the validator returns on every
    input: the [length] it reads is always there. *)
Theorem parseInclude_returns
        (include : JsValue) (includeErrors : list JsValue) :
  (forall v, isAnArray v = true -> exists items, v = JsArray items) ->
  exists r, parseInclude include includeErrors = Some r.
Proof.
  intros Honly. unfold parseInclude.
  destruct (containsNoErrorFromParser includeErrors); [| now eexists].
  destruct (isAnArray include) eqn:E; simpl; [| now eexists].
  destruct (Honly include E) as [items ->]. simpl. now eexists.
Qed.

End IncludeCases.

(** ** The further properties on the concrete configuration *)

Section MoreExamples.

Import Sample.
Import ParseInclude.

Lemma key_with_field_round_trip_witness :
  fieldOf "filter[age]" = Some "age" /\
  providedOperatorOf "filter[age]" = None /\
  paramKey (createError "filter[age]=10,abc" (fieldOf "filter[age]")
                        (providedOperatorOf "filter[age]")
                        (Many ["10"; "abc"]) "text") = "filter[age]".
Proof.
  apply (@key_with_field_round_trip "filter[age]=10,abc" "age" "text"
           (Many ["10"; "abc"])); reflexivity.
Defined.

Lemma key_with_operator_round_trip_witness :
  fieldOf "filter[age][$gt]" = Some "age" /\
  providedOperatorOf "filter[age][$gt]" = Some "$gt" /\
  paramKey (createError "filter[age][$gt]=null" (fieldOf "filter[age][$gt]")
                        (providedOperatorOf "filter[age][$gt]")
                        (Single "null") "text") = "filter[age][$gt]".
Proof.
  apply (@key_with_operator_round_trip "filter[age][$gt]=null" "age" "$gt" "text"
           (Single "null")); reflexivity.
Defined.

Lemma reported_key_ignores_the_prefix_witness :
  paramKey (createError "filterfoo[age]=1,a" (fieldOf "filterfoo[age]")
                        (providedOperatorOf "filterfoo[age]")
                        (Many ["1"; "a"]) "text") = "filter[age]" /\
  ("filterfoo" <> "filter" ->
   paramKey (createError "filterfoo[age]=1,a" (fieldOf "filterfoo[age]")
                         (providedOperatorOf "filterfoo[age]")
                         (Many ["1"; "a"]) "text") <> "filterfoo[age]").
Proof.
  apply (@reported_key_ignores_the_prefix "filterfoo[age]=1,a" "filterfoo" "age"
           "text" (Many ["1"; "a"])); reflexivity.
Defined.

Lemma key_without_bracket_has_no_field_witness :
  fieldOf "filter" = None /\
  providedOperatorOf "filter" = None /\
  paramKey (createError "filter=1,a" (fieldOf "filter")
                        (providedOperatorOf "filter")
                        (Many ["1"; "a"]) "text") = "filter[undefined]" /\
  (forall leaf, iteration "filter=1,a" ("filter", Many ["1"; "a"]) = Push leaf ->
                attributeRefOf leaf = Some "#undefined").
Proof.
  apply (@key_without_bracket_has_no_field numbers helpers mongo sql
           "filter=1,a" "filter" "text" (Many ["1"; "a"])); reflexivity.
Defined.

Lemma array_with_other_operator_is_rejected_witness :
  iteration "filter[age][$gt]=10,20" ("filter[age][$gt]", Many ["10"; "20"]) =
  ShortCircuit
    (createError "filter[age][$gt]=10,20" (Some "age") (Some "$gt")
                 (Many ["10"; "20"])
                 (dquote ++ "$gt" ++ dquote ++
                  " operator should not be used with array value")%string).
Proof.
  apply (@array_with_other_operator_is_rejected numbers helpers mongo sql
           "filter[age][$gt]=10,20" "filter[age][$gt]" "$gt" ["10"; "20"] NUMBER);
    try reflexivity; discriminate.
Defined.

Lemma scalar_with_unsuitable_operator_is_rejected_witness :
  iteration "filter[age][ilike]=10" ("filter[age][ilike]", Single "10") =
  ShortCircuit
    (createError "filter[age][ilike]=10" (Some "age") (Some "ilike")
                 (Single "10")
                 (dquote ++ "ilike" ++ dquote ++
                  " operator should not be used with number values")%string).
Proof.
  apply (proj1 (proj2
           (@scalar_with_unsuitable_operator_is_rejected numbers helpers mongo sql
              "filter[age][ilike]=10" "filter[age][ilike]" "ilike" "10" NUMBER
              eq_refl eq_refl)));
    reflexivity.
Defined.

Lemma string_is_accepted_with_any_operator_witness :
  exists leaf,
    iteration "filter[name][$gt]=abc" ("filter[name][$gt]", Single "abc") =
    Push leaf /\
    attributeRefOf leaf = Some "#name".
Proof.
  apply (@string_is_accepted_with_any_operator numbers helpers mongo sql
           "filter[name][$gt]=abc" "filter[name][$gt]" "abc").
  reflexivity.
Defined.

Example scenario_ordering_on_a_string :
  parseMongoFilter "filter[name][$gt]=abc" =
  Return (Some (Nary (Own ">") "#name" [Str "abc"])) [].
Proof. reflexivity. Qed.

Lemma omitted_operator_is_never_rejected_witness :
  iteration "filter[age]=10,20" ("filter[age]", Many ["10"; "20"]) =
  Push (Nary (Own "IN") "#age" [num 10; num 20]).
Proof.
  apply (@omitted_operator_is_never_rejected numbers helpers mongo sql
           "filter[age]=10,20" "filter[age]" (Many ["10"; "20"]) NUMBER);
    reflexivity.
Defined.

Lemma explicit_operator_is_mapped_witness :
  iteration "filter[age][$gte]=10" ("filter[age][$gte]", Single "10") =
  Push (Nary (Own ">=") "#age" [num 10]).
Proof.
  apply (@explicit_operator_is_mapped numbers helpers mongo sql
           "filter[age][$gte]=10" "filter[age][$gte]" "$gte" ">=" (Single "10")
           NUMBER);
    try reflexivity; [simpl; auto 12 | discriminate].
Defined.

Lemma returns_a_filter_or_one_error_witness :
  (exists compound : Filter,
      @None Filter = Some compound /\
      [createError "filter[age]=10,abc" (Some "age") None (Many ["10"; "abc"])
                   "arrays should not mix multiple value types"] = []) \/
  (@None Filter = None /\
   exists e,
     [createError "filter[age]=10,abc" (Some "age") None (Many ["10"; "abc"])
                  "arrays should not mix multiple value types"] = [e]).
Proof.
  apply (@returns_a_filter_or_one_error numbers helpers mongo sql
           "filter[age]=10,abc" (qs.parse "filter[age]=10,abc")).
  reflexivity.
Defined.

Lemma errors_come_from_a_filter_parameter_witness :
  let q := "sort=name&filter[age]=10,abc" in
  let e := createError q (Some "age") None (Many ["10"; "abc"])
                       "arrays should not mix multiple value types" in
  querystring e = q /\
  exists param providedValue text,
    In (param, providedValue) (qs.parse q) /\
    startsWith "filter" param = true /\
    e = createError q (fieldOf param) (providedOperatorOf param)
                    providedValue text.
Proof.
  intros q e.
  apply (@errors_come_from_a_filter_parameter numbers helpers mongo sql
           q (qs.parse q) None [e] e).
  - reflexivity.
  - simpl. auto.
Defined.

Lemma appending_a_filter_parameter_witness :
  parseParams "filter[a]=1&filter[b]=x"
              ([("filter[a]", Single "1")] ++ [("filter[b]", Single "x")]) =
  Return (Some (AND (Nary (Own "=") "#a" [num 1])
                    (Nary (Own "ILIKE") "#b" [Str "x"]))) [].
Proof.
  apply (@appending_a_filter_parameter numbers helpers mongo sql
           "filter[a]=1&filter[b]=x" [("filter[a]", Single "1")]
           ("filter[b]", Single "x") (Nary (Own "=") "#a" [num 1]));
    reflexivity.
Defined.

Lemma filter_lists_the_fields_in_order_witness :
  let q := "filter[a]=1&sort=a&filter[b]=x&filter[c]=null" in
  let compound := AND (AND (Nary (Own "=") "#a" [num 1])
                           (Nary (Own "ILIKE") "#b" [Str "x"]))
                      (Unary (Own "IS NULL") "#c") in
  fieldResultsOf q (filter isFilterParam (qs.parse q)) = Some (flatten compound) /\
  List.length (flatten compound) =
  List.length (filter isFilterParam (qs.parse q)).
Proof.
  intros q compound.
  apply (@filter_lists_the_fields_in_order numbers helpers mongo sql
           q (qs.parse q) compound []).
  reflexivity.
Defined.

Lemma include_that_is_no_array_is_an_error_witness :
  parseInclude (JsString "pets") [] =
  Some {| results := [];
          errors := [JsString "Include field should be an array"] |}.
Proof.
  apply (@include_that_is_no_array_is_an_error validation (JsString "pets") []);
    reflexivity.
Defined.

Lemma include_array_is_selected_witness :
  parseInclude (JsArray [JsString "pets"; JsString "dogs"]) [] =
  Some {| results :=
            [ {| fx := "select";
                 parameters := JsArray [JsString "pets"; JsString "dogs"] |} ];
          errors := [] |}.
Proof.
  apply (@include_array_is_selected validation (JsString "pets")
           [JsString "dogs"] []);
    reflexivity.
Defined.

Lemma parser_errors_pass_through_witness :
  parseInclude JsUndefined [JsString "include could not be parsed"] =
  Some {| results := []; errors := [JsString "include could not be parsed"] |}.
Proof.
  apply (@parser_errors_pass_through validation JsUndefined
           [JsString "include could not be parsed"]).
  reflexivity.
Defined.

Lemma include_result_shape_witness :
  let r := {| results := [ {| fx := "select";
                              parameters := JsArray [JsString "pets"] |} ];
              errors := [] |} in
  (results r = [] \/
   results r = [ {| fx := "select"; parameters := JsArray [JsString "pets"] |} ]) /\
  (results r <> [] -> errors r = []) /\
  (errors r = [] \/
   errors r = [JsString "Include field should be an array"] \/
   errors r = []).
Proof.
  intros r.
  apply (@include_result_shape validation (JsArray [JsString "pets"]) [] r).
  reflexivity.
Defined.

Lemma parseInclude_returns_witness :
  exists r, parseInclude JsNull [] = Some r.
Proof.
  apply (@parseInclude_returns validation JsNull []).
  intros v. destruct v; simpl; try discriminate. intros _. now eexists.
Defined.

End MoreExamples.
